(** * Telegram webhook service: a shallow embedding and its properties

    The development follows the Python sources module by module:
    [Hashlib] (the [hmac]/[hashlib] calls made by the signature check),
    [Models] (models.py), [AiAgent] (ai_agent.py), [WebhookHandler]
    (webhook_handler.py) and [Main] (main.py).

    Conventions.
    - A Python [str] is represented by the string of its UTF-8 bytes and a
      Python [bytes] by the string of its bytes, so [str.encode()] is the
      identity, string equality and emptiness are preserved, and a [str]
      is ASCII exactly when every byte is below 128.
    - Clock readings ([datetime.utcnow()]) are explicit inputs; a timestamp
      is a rational number of seconds, so the rounding of the float
      subtraction in the rate limiter is not modelled.  Fields that only
      store a clock reading and are never branched on ([processed_at],
      [timestamp], [processing_time]) are left out of the records.
    - Exceptions are values of [Exception]; a function that may raise
      returns [Exception + A]. *)

From Stdlib Require Import ZArith QArith Lqa Lia List Bool Ascii String.
From stdpp Require Import base option gmap strings pretty.

Import ListNotations.
Set Warnings "-register-all".
#[local] Set Warnings "-notation-overridden,-ambiguous-paths".

Local Open Scope string_scope.
Local Open Scope Z_scope.
Local Open Scope list_scope.

(* ===================================================================== *)
(** ** hashlib.sha256 and hmac.new(...).hexdigest()                        *)
(* ===================================================================== *)

Module Hashlib.

(** 32-bit words are integers in [0, 2^32); additions wrap around. *)
Definition wrap32 (x : Z) : Z := x mod 2 ^ 32.

Definition add32 (x y : Z) : Z := wrap32 (x + y).

Definition rotr (n x : Z) : Z :=
  Z.lor (Z.shiftr x n) (wrap32 (Z.shiftl x (32 - n))).

Definition not32 (x : Z) : Z := Z.lxor x 4294967295.

Definition Ch (x y z : Z) : Z := Z.lxor (Z.land x y) (Z.land (not32 x) z).

Definition Maj (x y z : Z) : Z :=
  Z.lxor (Z.lxor (Z.land x y) (Z.land x z)) (Z.land y z).

Definition Sigma0 (x : Z) : Z := Z.lxor (Z.lxor (rotr 2 x) (rotr 13 x)) (rotr 22 x).
Definition Sigma1 (x : Z) : Z := Z.lxor (Z.lxor (rotr 6 x) (rotr 11 x)) (rotr 25 x).
Definition sigma0 (x : Z) : Z := Z.lxor (Z.lxor (rotr 7 x) (rotr 18 x)) (Z.shiftr x 3).
Definition sigma1 (x : Z) : Z := Z.lxor (Z.lxor (rotr 17 x) (rotr 19 x)) (Z.shiftr x 10).

(** The first 64 primes, by trial division. *)
Definition is_prime (n : Z) : bool :=
  forallb (fun d => negb (n mod Z.of_nat d =? 0)) (seq 2 (Z.to_nat n - 2)).

Definition primes64 : list Z :=
  Eval vm_compute in List.filter is_prime (map Z.of_nat (seq 2 310)).

(** The largest [r] below [2 ^ bits] with [r ^ 3 <= n], bit by bit. *)
Fixpoint cube_root (bits : nat) (n r : Z) : Z :=
  match bits with
  | O => r
  | S k =>
      let r' := r + 2 ^ Z.of_nat k in
      cube_root k n (if r' * r' * r' <=? n then r' else r)
  end.

(** The round constants: the first 32 bits of the fractional part of the
    cube root of each prime. *)
Definition K256 : list Z :=
  Eval vm_compute in map (fun p => wrap32 (cube_root 36 (p * 2 ^ 96) 0)) primes64.

(** The eight chaining words. *)
Record hstate := HState {
  ha : Z; hb : Z; hc : Z; hd : Z; he : Z; hf : Z; hg : Z; hh : Z }.

(** The initial chaining value: the first 32 bits of the fractional part
    of the square root of each of the first eight primes. *)
Definition frac_sqrt (p : Z) : Z := wrap32 (Z.sqrt (p * 2 ^ 64)).

Definition H256_init : hstate :=
  Eval vm_compute in
    HState (frac_sqrt 2) (frac_sqrt 3) (frac_sqrt 5) (frac_sqrt 7)
           (frac_sqrt 11) (frac_sqrt 13) (frac_sqrt 17) (frac_sqrt 19).

Definition byte_of (c : ascii) : Z := Z.of_N (N_of_ascii c).

Definition bytes_of_string (s : string) : list Z := map byte_of (list_ascii_of_string s).

(** Big-endian encoding of [x] on [n] bytes. *)
Fixpoint be_bytes (n : nat) (x : Z) : list Z :=
  match n with
  | O => []
  | S k => (Z.shiftr x (8 * Z.of_nat k)) mod 256 :: be_bytes k x
  end.

(** Message padding: a 1 bit, zeros up to 56 mod 64, the bit length on 8 bytes. *)
Definition pad (msg : list Z) : list Z :=
  let len := Z.of_nat (List.length msg) in
  let zeros := Z.to_nat ((55 - len) mod 64) in
  msg ++ 128 :: repeat 0 zeros ++ be_bytes 8 (8 * len).

Fixpoint words_of_bytes (n : nat) (l : list Z) : list Z :=
  match n, l with
  | S k, b0 :: b1 :: b2 :: b3 :: r =>
      (Z.shiftl b0 24 + Z.shiftl b1 16 + Z.shiftl b2 8 + b3) :: words_of_bytes k r
  | _, _ => []
  end.

(** The message schedule: [w] holds the last sixteen words, oldest first. *)
Fixpoint schedule (n : nat) (w : list Z) : list Z :=
  match n with
  | O => []
  | S k =>
      match w with
      | [] => []
      | w0 :: rest =>
          let next := add32 (add32 (sigma1 (nth 14 w 0)) (nth 9 w 0))
                            (add32 (sigma0 (nth 1 w 0)) w0) in
          w0 :: schedule k (rest ++ [next])
      end
  end.

Definition round (s : hstate) (kw : Z * Z) : hstate :=
  let (k, w) := kw in
  let t1 := add32 (add32 (add32 (hh s) (Sigma1 (he s))) (Ch (he s) (hf s) (hg s)))
                  (add32 k w) in
  let t2 := add32 (Sigma0 (ha s)) (Maj (ha s) (hb s) (hc s)) in
  HState (add32 t1 t2) (ha s) (hb s) (hc s) (add32 (hd s) t1) (he s) (hf s) (hg s).

Definition compress (s : hstate) (block : list Z) : hstate :=
  let w := schedule 64 (words_of_bytes 16 block) in
  let r := fold_left round (combine K256 w) s in
  HState (add32 (ha s) (ha r)) (add32 (hb s) (hb r)) (add32 (hc s) (hc r))
         (add32 (hd s) (hd r)) (add32 (he s) (he r)) (add32 (hf s) (hf r))
         (add32 (hg s) (hg r)) (add32 (hh s) (hh r)).

(** Fold [compress] over the 64-byte blocks of [l]; [n] bounds the number
    of blocks. *)
Fixpoint blocks (n : nat) (s : hstate) (l : list Z) : hstate :=
  match n with
  | O => s
  | S k =>
      match l with
      | [] => s
      | _ => blocks k (compress s (firstn 64 l)) (skipn 64 l)
      end
  end.

Definition digest_of (s : hstate) : list Z :=
  be_bytes 4 (ha s) ++ be_bytes 4 (hb s) ++ be_bytes 4 (hc s) ++ be_bytes 4 (hd s) ++
  be_bytes 4 (he s) ++ be_bytes 4 (hf s) ++ be_bytes 4 (hg s) ++ be_bytes 4 (hh s).

Definition sha256 (msg : list Z) : list Z :=
  let p := pad msg in
  digest_of (blocks (S (List.length p / 64)) H256_init p).

Definition block_size : nat := 64.

(** [hmac.new(key, msg, hashlib.sha256).digest()]. *)
Definition hmac_sha256 (key msg : list Z) : list Z :=
  let k0 := if (block_size <? List.length key)%nat then sha256 key else key in
  let k := k0 ++ repeat 0 (block_size - List.length k0) in
  let ipad := map (Z.lxor 0x36) k in
  let opad := map (Z.lxor 0x5c) k in
  sha256 (opad ++ sha256 (ipad ++ msg)).

Definition hex_digit (n : Z) : ascii :=
  match n with
  | 0 => "0" | 1 => "1" | 2 => "2" | 3 => "3" | 4 => "4" | 5 => "5"
  | 6 => "6" | 7 => "7" | 8 => "8" | 9 => "9" | 10 => "a" | 11 => "b"
  | 12 => "c" | 13 => "d" | 14 => "e" | _ => "f"
  end%char.

Fixpoint hex_of_bytes (l : list Z) : string :=
  match l with
  | [] => ""
  | b :: r => String (hex_digit (b / 16 mod 16)) (String (hex_digit (b mod 16)) (hex_of_bytes r))
  end.

(** [hmac.new(key, msg, hashlib.sha256).hexdigest()] on byte strings. *)
Definition hmac_hexdigest (key msg : string) : string :=
  hex_of_bytes (hmac_sha256 (bytes_of_string key) (bytes_of_string msg)).

End Hashlib.

(* ===================================================================== *)
(** ** Python values: truthiness, [or], exceptions                         *)
(* ===================================================================== *)

Module Py.

(** [Dict[str, Any]] and [Any]: JSON-like values. *)
Inductive Any : Type :=
| PyNone
| PyBool (b : bool)
| PyInt (n : Z)
| PyFloat (q : Q)
| PyStr (s : string)
| PyList (l : list Any)
| PyDict (d : list (string * Any)).

Definition Dict : Type := list (string * Any).

(** [bool(x)] for the optional values the sources test with [if x] /
    [if not x] / [x or y]. *)
Definition truthy_str (o : option string) : bool :=
  match o with
  | Some s => negb (s =? "")%string
  | None => false
  end.

Definition truthy_list {A} (o : option (list A)) : bool :=
  match o with
  | Some (_ :: _) => true
  | _ => false
  end.

(** Instances of a pydantic model define neither [__bool__] nor [__len__]:
    an optional model is truthy exactly when it is not [None]. *)
Definition truthy_obj {A} (o : option A) : bool :=
  match o with
  | Some _ => true
  | None => false
  end.

Definition truthy_int (o : option Z) : bool :=
  match o with
  | Some n => negb (n =? 0)
  | None => false
  end.

(** [x or y]: [x] when it is truthy, else [y] (whatever [y] is). *)
Definition or_ {A} (truthy : A -> bool) (x y : A) : A :=
  if truthy x then x else y.

(** The exceptions the sources raise or catch; all are subclasses of
    [Exception]. *)
Inductive Exception : Type :=
| HTTPException (status_code : Z) (detail : string)
| ValueError (msg : string)
| TypeError (msg : string)
| JSONDecodeError (msg : string)
| OtherException (msg : string).

(** [str(e)]; for [HTTPException] the text is the status code, a colon and
    the detail. *)
Definition str (e : Exception) : string :=
  match e with
  | HTTPException c d => (pretty c ++ ": " ++ d)%string
  | ValueError m | TypeError m | JSONDecodeError m | OtherException m => m
  end.

(** [needle in hay] on strings. *)
Fixpoint contains (needle hay : string) : bool :=
  if String.prefix needle hay then true
  else match hay with
       | EmptyString => false
       | String _ rest => contains needle rest
       end.

(** A [str] is ASCII when every byte of its UTF-8 form is below 128. *)
Definition is_ascii (s : string) : bool :=
  forallb (fun c => Hashlib.byte_of c <? 128) (list_ascii_of_string s).

(** [hmac.compare_digest(a, b)] on two [str]: a [TypeError] unless both are
    ASCII, else whether they are equal. *)
Definition compare_digest (a b : string) : Exception + bool :=
  if is_ascii a && is_ascii b then inr (a =? b)%string
  else inl (TypeError "comparing strings with non-ASCII characters is not supported").

End Py.

(* ===================================================================== *)
(** ** models.py                                                           *)
(* ===================================================================== *)

Module Models.
Import Py.

Module TelegramUser.
Record t : Type := Build {
  id : Z;
  is_bot : bool;
  first_name : string;
  last_name : option string;
  username : option string;
  language_code : option string;
  is_premium : option bool;
  added_to_attachment_menu : option bool }.
End TelegramUser.

Module TelegramChat.
Record t : Type := Build {
  id : Z;
  type : string;
  title : option string;
  username : option string;
  first_name : option string;
  last_name : option string }.
End TelegramChat.

Module TelegramMessage.
Record t : Type := Build {
  message_id : Z;
  date : Q;
  chat : TelegramChat.t;
  from_user : option TelegramUser.t;
  text : option string;
  entities : option (list Dict);
  caption : option string;
  photo : option (list Dict);
  document : option Dict;
  audio : option Dict;
  video : option Dict }.
End TelegramMessage.

Module TelegramWebhook.
Record t : Type := Build {
  update_id : Z;
  message : option TelegramMessage.t;
  edited_message : option TelegramMessage.t;
  channel_post : option TelegramMessage.t;
  edited_channel_post : option TelegramMessage.t;
  inline_query : option Dict;
  chosen_inline_result : option Dict;
  callback_query : option Dict;
  shipping_query : option Dict;
  pre_checkout_query : option Dict;
  poll : option Dict;
  poll_answer : option Dict;
  my_chat_member : option Dict;
  chat_member : option Dict;
  chat_join_request : option Dict }.

(** [self.message or self.edited_message or self.channel_post or
    self.edited_channel_post] *)
Definition get_message (self : t) : option TelegramMessage.t :=
  or_ truthy_obj (or_ truthy_obj (or_ truthy_obj (message self) (edited_message self))
                                 (channel_post self))
      (edited_channel_post self).

Definition get_text (self : t) : option string :=
  let message := get_message self in
  if negb (truthy_obj message) then None
  else match message with
       | Some m => or_ truthy_str (TelegramMessage.text m) (TelegramMessage.caption m)
       | None => None
       end.
End TelegramWebhook.

Module WebhookResponse.
Record t : Type := Build {
  success : bool;
  message : string;
  processed_data : option Dict }.
End WebhookResponse.

Module ProcessedWebhook.
Record t : Type := Build {
  id : option Z;
  update_id : Z;
  chat_id : option Z;
  user_id : option Z;
  message_text : option string;
  message_type : string;
  sent_to_ai : bool;
  ai_response : option string;
  raw_data : string }.
End ProcessedWebhook.

Module AIRequest.
Record t : Type := Build {
  webhook_id : Z;
  update_id : Z;
  chat_id : option Z;
  user_id : option Z;
  message_text : option string;
  message_type : string }.
End AIRequest.

Module AIResponse.
Record t : Type := Build {
  webhook_id : Z;
  success : bool;
  response_text : option string;
  error_message : option string }.
End AIResponse.

End Models.

(* ===================================================================== *)
(** ** config.py                                                           *)
(* ===================================================================== *)

Module Config.
(** The settings read by the modelled code. *)
Record t : Type := Build {
  WEBHOOK_SECRET_TOKEN : string;
  RATE_LIMIT : Z;
  RATE_LIMIT_WINDOW : Z }.

(** The values used when the environment sets none. *)
Definition default : t :=
  {| WEBHOOK_SECRET_TOKEN := ""; RATE_LIMIT := 100; RATE_LIMIT_WINDOW := 60 |}.
End Config.

(* ===================================================================== *)
(** ** What the service calls outside this repository                      *)
(* ===================================================================== *)

(** The two computations whose code lives in libraries or may be replaced:
    - [load_webhook body] is the body of the [try] in
      [_parse_webhook_data]: [json.loads] of [body.decode('utf-8')], then
      the [TelegramWebhook] model validated from its keys; [inl e] when it
      raises [e];
    - [generate_response r] is the body of the [try] in
      [AIAgent.process_webhook] up to the value of [response_text]
      ([await asyncio.sleep(0.1)], then [self._generate_response(r)]);
      [inl e] when it raises [e]. *)
Class Externals : Type := {
  load_webhook : string -> Py.Exception + Models.TelegramWebhook.t;
  generate_response : Models.AIRequest.t -> Py.Exception + string }.

(* ===================================================================== *)
(** ** ai_agent.py                                                         *)
(* ===================================================================== *)

Module AiAgent.
Import Py Models.

Module AIAgent.
Record t : Type := Build {
  is_ready : bool;
  processing_count : Z }.
End AIAgent.

(** [ai_agent = AIAgent()] *)
Definition ai_agent_init : AIAgent.t :=
  {| AIAgent.is_ready := true; AIAgent.processing_count := 0 |}.

Section KeywordRules.
(** [str.lower().strip()] and [datetime.now().strftime('%H:%M:%S')]. *)
Variable lower_strip : string -> string.
Variable now_hms : string.

Definition _generate_response (ai_request : AIRequest.t) : string :=
  if negb (truthy_str (AIRequest.message_text ai_request)) then
    "Получено сообщение без текста"
  else
    let message_text := default "" (AIRequest.message_text ai_request) in
    let text := lower_strip message_text in
    if contains "привет" text || contains "hello" text then
      "Привет! Рад вас видеть!"
    else if contains "помощь" text || contains "help" text then
      "Я могу помочь вам с различными вопросами. Что вам нужно?"
    else if contains "время" text || contains "time" text then
      ("Текущее время: " ++ now_hms)%string
    else if contains "?" text then
      "Интересный вопрос! Я подумаю над этим."
    else
      ("Получено сообщение: '" ++ message_text ++ "'")%string.

(** The rule-based agent of the repository as an instance of the try body. *)
Definition keyword_rules (ai_request : AIRequest.t) : Exception + string :=
  inr (_generate_response ai_request).
End KeywordRules.

Section Agent.
Context `{Externals}.

Definition process_webhook (self : AIAgent.t) (ai_request : AIRequest.t)
  : AIAgent.t * AIResponse.t :=
  let self := {| AIAgent.is_ready := AIAgent.is_ready self;
                 AIAgent.processing_count := AIAgent.processing_count self + 1 |} in
  match generate_response ai_request with
  | inr response_text =>
      (self, {| AIResponse.webhook_id := AIRequest.webhook_id ai_request;
                AIResponse.success := true;
                AIResponse.response_text := Some response_text;
                AIResponse.error_message := None |})
  | inl e =>
      (self, {| AIResponse.webhook_id := AIRequest.webhook_id ai_request;
                AIResponse.success := false;
                AIResponse.response_text := None;
                AIResponse.error_message := Some (str e) |})
  end.

Definition send_to_ai_agent (ai_agent : AIAgent.t) (ai_request : AIRequest.t)
  : AIAgent.t * AIResponse.t :=
  process_webhook ai_agent ai_request.
End Agent.

End AiAgent.

(* ===================================================================== *)
(** ** The inbound request (fastapi.Request)                               *)
(* ===================================================================== *)

Module Request.
(** [client]: [request.client.host] when [request.client] is set;
    [secret_token]: [request.headers.get('X-Telegram-Bot-Api-Secret-Token')];
    [body]: [await request.body()]. *)
Record t : Type := Build {
  client : option string;
  secret_token : option string;
  body : string }.
End Request.

(* ===================================================================== *)
(** ** webhook_handler.py                                                  *)
(* ===================================================================== *)

Module WebhookHandler.
Import Py Models.

Module WebhookProcessor.
Record t : Type := Build {
  processed_count : Z;
  error_count : Z }.
End WebhookProcessor.

(** [webhook_processor = WebhookProcessor()] *)
Definition webhook_processor_init : WebhookProcessor.t :=
  {| WebhookProcessor.processed_count := 0; WebhookProcessor.error_count := 0 |}.

(** The dictionary returned by [get_statistics], without its [timestamp]. *)
Module Statistics.
Record t : Type := Build {
  processed_count : Z;
  error_count : Z;
  success_rate : Q }.
End Statistics.

Definition get_statistics (self : WebhookProcessor.t) : Statistics.t :=
  let p := WebhookProcessor.processed_count self in
  let e := WebhookProcessor.error_count self in
  {| Statistics.processed_count := p;
     Statistics.error_count := e;
     Statistics.success_rate :=
       if p + e >? 0 then (inject_Z p / inject_Z (p + e))%Q else 0%Q |}.

Definition _determine_message_type (webhook : TelegramWebhook.t) : string :=
  match TelegramWebhook.get_message webhook with
  | None => "unknown"
  | Some message =>
      if truthy_str (TelegramMessage.text message) then "text"
      else if truthy_list (TelegramMessage.photo message) then "photo"
      else if truthy_list (TelegramMessage.document message) then "document"
      else if truthy_list (TelegramMessage.audio message) then "audio"
      else if truthy_list (TelegramMessage.video message) then "video"
      else if truthy_list (TelegramMessage.entities message) then "entities"
      else "other"
  end.

Section Processor.
Context `{Externals} (config : Config.t).

Definition _validate_signature (request : Request.t) (body : string)
  : Exception + unit :=
  let attempt : Exception + unit :=
    let signature := Request.secret_token request in
    if negb (truthy_str signature) then
      inl (HTTPException 401 "Missing signature header")
    else
      let expected_signature :=
        Hashlib.hmac_hexdigest (Config.WEBHOOK_SECRET_TOKEN config) body in
      match compare_digest (default "" signature) expected_signature with
      | inl e => inl e
      | inr false => inl (HTTPException 401 "Invalid signature")
      | inr true => inr tt
      end in
  match attempt with
  | inl (HTTPException status_code detail) => inl (HTTPException status_code detail)
  | inl _ => inl (HTTPException 401 "Signature validation failed")
  | inr r => inr r
  end.

Definition _parse_webhook_data (body : string) : Exception + TelegramWebhook.t :=
  match load_webhook body with
  | inr webhook => inr webhook
  | inl (JSONDecodeError m) =>
      inl (ValueError ("Invalid JSON data: " ++ str (JSONDecodeError m))%string)
  | inl e => inl (ValueError ("Webhook data validation failed: " ++ str e)%string)
  end.

(** Lines 34 to 36 of [process_telegram_webhook]: the signature is checked
    only when a secret token is configured. *)
Definition check_signature (request : Request.t) (body : string) : Exception + unit :=
  if negb (String.eqb (Config.WEBHOOK_SECRET_TOKEN config) "")
  then _validate_signature request body
  else inr tt.

(** Lines 34 to 64 of [process_telegram_webhook]: everything done before the
    agent is awaited.  The result is the parsed update, the record built from
    it and the request about to be sent. *)
Definition prepare_dispatch (request : Request.t) (body : string)
  : Exception + (TelegramWebhook.t * ProcessedWebhook.t * AIRequest.t) :=
  match check_signature request body with
  | inl e => inl e
  | inr _ =>
      match _parse_webhook_data body with
      | inl e => inl e
      | inr telegram_webhook =>
          match TelegramWebhook.get_message telegram_webhook with
          | None => inl (ValueError "No message found in webhook")
          | Some message =>
              let processed_webhook :=
                {| ProcessedWebhook.id := None;
                   ProcessedWebhook.update_id := TelegramWebhook.update_id telegram_webhook;
                   (* [message.chat] is a required model, hence truthy *)
                   ProcessedWebhook.chat_id :=
                     Some (TelegramChat.id (TelegramMessage.chat message));
                   ProcessedWebhook.user_id :=
                     if truthy_obj (TelegramMessage.from_user message)
                     then TelegramUser.id <$> TelegramMessage.from_user message
                     else None;
                   ProcessedWebhook.message_text := TelegramWebhook.get_text telegram_webhook;
                   ProcessedWebhook.message_type := _determine_message_type telegram_webhook;
                   ProcessedWebhook.sent_to_ai := false;
                   ProcessedWebhook.ai_response := None;
                   ProcessedWebhook.raw_data := body |} in
              let ai_request :=
                {| AIRequest.webhook_id :=
                     default 0 (or_ truthy_int (ProcessedWebhook.id processed_webhook) (Some 0));
                   AIRequest.update_id := TelegramWebhook.update_id telegram_webhook;
                   AIRequest.chat_id := ProcessedWebhook.chat_id processed_webhook;
                   AIRequest.user_id := ProcessedWebhook.user_id processed_webhook;
                   AIRequest.message_text := ProcessedWebhook.message_text processed_webhook;
                   AIRequest.message_type := ProcessedWebhook.message_type processed_webhook |} in
              inr (telegram_webhook, processed_webhook, ai_request)
          end
      end
  end.

Definition process_telegram_webhook
    (self : WebhookProcessor.t) (ai_agent : AiAgent.AIAgent.t)
    (request : Request.t) (body : string)
  : WebhookProcessor.t * AiAgent.AIAgent.t * (Exception + ProcessedWebhook.t) :=
  match prepare_dispatch request body with
  | inr (telegram_webhook, processed_webhook, ai_request) =>
      let (ai_agent, ai_response) := AiAgent.send_to_ai_agent ai_agent ai_request in
      let processed_webhook :=
        {| ProcessedWebhook.id := ProcessedWebhook.id processed_webhook;
           ProcessedWebhook.update_id := ProcessedWebhook.update_id processed_webhook;
           ProcessedWebhook.chat_id := ProcessedWebhook.chat_id processed_webhook;
           ProcessedWebhook.user_id := ProcessedWebhook.user_id processed_webhook;
           ProcessedWebhook.message_text := ProcessedWebhook.message_text processed_webhook;
           ProcessedWebhook.message_type := ProcessedWebhook.message_type processed_webhook;
           ProcessedWebhook.sent_to_ai := AIResponse.success ai_response;
           ProcessedWebhook.ai_response := AIResponse.response_text ai_response;
           ProcessedWebhook.raw_data := ProcessedWebhook.raw_data processed_webhook |} in
      ({| WebhookProcessor.processed_count := WebhookProcessor.processed_count self + 1;
          WebhookProcessor.error_count := WebhookProcessor.error_count self |},
       ai_agent, inr processed_webhook)
  | inl e =>
      ({| WebhookProcessor.processed_count := WebhookProcessor.processed_count self;
          WebhookProcessor.error_count := WebhookProcessor.error_count self + 1 |},
       ai_agent,
       inl (HTTPException 400 ("Webhook processing failed: " ++ str e)%string))
  end.

Definition handle_webhook := process_telegram_webhook.

(** [timestamp > window_start] *)
Definition Qgt_bool (x y : Q) : bool := negb (Qle_bool x y).

(** [RateLimiter.is_allowed]; [self] is the [requests] dictionary and [now]
    the reading of [datetime.utcnow().timestamp()]. *)
Definition is_allowed (self : gmap string (list Q)) (now : Q) (ip_address : string)
  : gmap string (list Q) * bool :=
  let window_start := (now - inject_Z (Config.RATE_LIMIT_WINDOW config))%Q in
  let self :=
    match self !! ip_address with
    | Some timestamps =>
        <[ip_address := List.filter (fun timestamp => Qgt_bool timestamp window_start) timestamps]> self
    | None => <[ip_address := []]> self
    end in
  let window := default [] (self !! ip_address) in
  if Z.of_nat (List.length window) >=? Config.RATE_LIMIT config then (self, false)
  else (<[ip_address := window ++ [now]]> self, true).

End Processor.

(** [rate_limiter = RateLimiter()] *)
Definition rate_limiter_init : gmap string (list Q) := ∅.

End WebhookHandler.

(* ===================================================================== *)
(** ** main.py                                                             *)
(* ===================================================================== *)

Module Main.
Import Py Models WebhookHandler.

(** The module-level singletons the endpoint reads and updates. *)
Module Service.
Record t : Type := Build {
  rate_limiter : gmap string (list Q);
  webhook_processor : WebhookProcessor.t;
  ai_agent : AiAgent.AIAgent.t }.
End Service.

Definition service_init : Service.t :=
  {| Service.rate_limiter := rate_limiter_init;
     Service.webhook_processor := webhook_processor_init;
     Service.ai_agent := AiAgent.ai_agent_init |}.

Definition opt_int (o : option Z) : Any :=
  match o with Some n => PyInt n | None => PyNone end.

Definition opt_str (o : option string) : Any :=
  match o with Some s => PyStr s | None => PyNone end.

Section Endpoint.
Context `{Externals} (config : Config.t).

(** [POST /webhook/telegram]; [now] is the clock reading of the rate
    limiter. *)
Definition telegram_webhook (st : Service.t) (now : Q) (request : Request.t)
  : Service.t * (Exception + WebhookResponse.t) :=
  let client_ip := default "unknown" (Request.client request) in
  let (rate_limiter, allowed) := is_allowed config (Service.rate_limiter st) now client_ip in
  let st := {| Service.rate_limiter := rate_limiter;
               Service.webhook_processor := Service.webhook_processor st;
               Service.ai_agent := Service.ai_agent st |} in
  if negb allowed then (st, inl (HTTPException 429 "Rate limit exceeded"))
  else
    let '(st, attempt) :=
      let body := Request.body request in
      if String.eqb body "" then (st, inl (HTTPException 400 "Empty request body"))
      else
        let '(webhook_processor, ai_agent, r) :=
          handle_webhook config (Service.webhook_processor st) (Service.ai_agent st)
                         request body in
        let st := {| Service.rate_limiter := Service.rate_limiter st;
                     Service.webhook_processor := webhook_processor;
                     Service.ai_agent := ai_agent |} in
        match r with
        | inl e => (st, inl e)
        | inr processed_webhook =>
            (st, inr {| WebhookResponse.success := true;
                        WebhookResponse.message := "Webhook processed successfully";
                        WebhookResponse.processed_data := Some
                          [ ("update_id", PyInt (ProcessedWebhook.update_id processed_webhook));
                            ("chat_id", opt_int (ProcessedWebhook.chat_id processed_webhook));
                            ("user_id", opt_int (ProcessedWebhook.user_id processed_webhook));
                            ("message_type", PyStr (ProcessedWebhook.message_type processed_webhook));
                            ("sent_to_ai", PyBool (ProcessedWebhook.sent_to_ai processed_webhook));
                            ("ai_response", opt_str (ProcessedWebhook.ai_response processed_webhook)) ] |})
        end in
    match attempt with
    | inl (HTTPException status_code detail) => (st, inl (HTTPException status_code detail))
    | inl e => (st, inl (HTTPException 500 ("Internal server error: " ++ str e)%string))
    | inr response => (st, inr response)
    end.

(** The status code of the HTTP response: 200 for a returned body, the code
    of the [HTTPException] otherwise (the global handler answers 500 to any
    other exception). *)
Definition status_code (r : Exception + WebhookResponse.t) : Z :=
  match r with
  | inr _ => 200
  | inl (HTTPException c _) => c
  | inl _ => 500
  end.

(** The endpoint run over a sequence of requests, each with its clock
    reading; the responses come out in order. *)
Fixpoint serve (st : Service.t) (trace : list (Q * Request.t))
  : Service.t * list (Exception + WebhookResponse.t) :=
  match trace with
  | [] => (st, [])
  | (now, request) :: rest =>
      let (st, r) := telegram_webhook st now request in
      let (st, rs) := serve st rest in
      (st, r :: rs)
  end.

End Endpoint.
End Main.

(* ===================================================================== *)
(** ** The behaviour as the specification words it                         *)
(* ===================================================================== *)

Module Stated.
Import Py Models WebhookHandler.

(** The first entry that is present. *)
Fixpoint first_present {A} (l : list (option A)) : option A :=
  match l with
  | [] => None
  | Some x :: _ => Some x
  | None :: rest => first_present rest
  end.

(** The label of the first entry whose test holds, [other] when none does. *)
Fixpoint first_match (chain : list (bool * string)) (other : string) : string :=
  match chain with
  | [] => other
  | (true, label) :: _ => label
  | (false, _) :: rest => first_match rest other
  end.

(** Content type with every field counted as soon as it is present. *)
Definition content_type_present (webhook : TelegramWebhook.t) : string :=
  match TelegramWebhook.get_message webhook with
  | None => "unknown"
  | Some m =>
      first_match
        [ (truthy_obj (TelegramMessage.text m), "text");
          (truthy_obj (TelegramMessage.photo m), "photo");
          (truthy_obj (TelegramMessage.document m), "document");
          (truthy_obj (TelegramMessage.audio m), "audio");
          (truthy_obj (TelegramMessage.video m), "video");
          (truthy_obj (TelegramMessage.entities m), "entities") ]
        "other"
  end.

(** The eight content types. *)
Definition content_types : list string :=
  [ "text"; "photo"; "document"; "audio"; "video"; "entities"; "other"; "unknown" ].

(** Admission on one client's window with the purge worded as "older than
    [now - windowSeconds]": a timestamp equal to the bound stays. *)
Definition admit_older_than (config : Config.t) (window : list Q) (now : Q)
  : list Q * bool :=
  let bound := (now - inject_Z (Config.RATE_LIMIT_WINDOW config))%Q in
  let remaining := List.filter (fun t => Qle_bool bound t) window in
  if Z.of_nat (List.length remaining) >=? Config.RATE_LIMIT config then (remaining, false)
  else (remaining ++ [now], true).

(** The lower bound of the window at [now]. *)
Definition window_start (config : Config.t) (now : Q) : Q :=
  (now - inject_Z (Config.RATE_LIMIT_WINDOW config))%Q.

(** The timestamps of [window] strictly newer than [bound], in order. *)
Definition newer_than (bound : Q) (window : list Q) : list Q :=
  List.filter (fun t => Qgt_bool t bound) window.

(** One client calling [is_allowed] at each of [times] in turn. *)
Fixpoint admissions (config : Config.t) (self : gmap string (list Q)) (ip : string)
    (times : list Q) : gmap string (list Q) * list bool :=
  match times with
  | [] => (self, [])
  | now :: rest =>
      let (self, a) := is_allowed config self now ip in
      let (self, r) := admissions config self ip rest in
      (self, a :: r)
  end.

(** Where a request ends in the pipeline of the specification. *)
Inductive Outcome : Type :=
| RateLimited
| EmptyBody
| Unauthorized
| BadRequest
| Dispatched.

Definition Outcome_eqb (a b : Outcome) : bool :=
  match a, b with
  | RateLimited, RateLimited | EmptyBody, EmptyBody | Unauthorized, Unauthorized
  | BadRequest, BadRequest | Dispatched, Dispatched => true
  | _, _ => false
  end.

(** A terminal failure at steps 1 to 4. *)
Definition terminal_failure (o : Outcome) : bool := negb (Outcome_eqb o Dispatched).

(** A failure raised inside the webhook processor (steps 3 and 4). *)
Definition processor_failure (o : Outcome) : bool :=
  Outcome_eqb o Unauthorized || Outcome_eqb o BadRequest.

Definition count (p : Outcome -> bool) (l : list Outcome) : Z :=
  Z.of_nat (List.length (List.filter p l)).

(** The increment of a counter. *)
Definition bump (b : bool) : Z := if b then 1 else 0.

Section Pipeline.
Context `{Externals} (config : Config.t).

(** The step at which a request ends: rate check, empty body, signature,
    parse (a payload without message included), dispatch. *)
Definition outcome (st : Main.Service.t) (now : Q) (request : Request.t) : Outcome :=
  let client_ip := default "unknown" (Request.client request) in
  if negb (snd (is_allowed config (Main.Service.rate_limiter st) now client_ip)) then RateLimited
  else if String.eqb (Request.body request) "" then EmptyBody
  else match check_signature config request (Request.body request) with
       | inl _ => Unauthorized
       | inr _ =>
           match _parse_webhook_data (Request.body request) with
           | inl _ => BadRequest
           | inr webhook =>
               match TelegramWebhook.get_message webhook with
               | None => BadRequest
               | Some _ => Dispatched
               end
           end
       end.

(** The outcomes of a sequence of requests served in order. *)
Fixpoint outcomes (st : Main.Service.t) (trace : list (Q * Request.t)) : list Outcome :=
  match trace with
  | [] => []
  | (now, request) :: rest =>
      outcome st now request :: outcomes (fst (Main.telegram_webhook config st now request)) rest
  end.

End Pipeline.
End Stated.

(* ===================================================================== *)
(** ** Sample data                                                         *)
(* ===================================================================== *)

Module Samples.
Import Py Models.

Definition dq : string := String (ascii_of_nat 34) "".
Definition quoted (s : string) : string := (dq ++ s ++ dq)%string.

Definition john : TelegramUser.t :=
  {| TelegramUser.id := 987654321; TelegramUser.is_bot := false;
     TelegramUser.first_name := "John"; TelegramUser.last_name := None;
     TelegramUser.username := None; TelegramUser.language_code := None;
     TelegramUser.is_premium := None; TelegramUser.added_to_attachment_menu := None |}.

Definition private_chat : TelegramChat.t :=
  {| TelegramChat.id := 987654321; TelegramChat.type := "private";
     TelegramChat.title := None; TelegramChat.username := None;
     TelegramChat.first_name := None; TelegramChat.last_name := None |}.

(** A message with the given text, caption and photo and nothing else. *)
Definition message_with (text caption : option string) (photo : option (list Dict))
  : TelegramMessage.t :=
  {| TelegramMessage.message_id := 1; TelegramMessage.date := 1708234567%Q;
     TelegramMessage.chat := private_chat; TelegramMessage.from_user := Some john;
     TelegramMessage.text := text; TelegramMessage.entities := None;
     TelegramMessage.caption := caption; TelegramMessage.photo := photo;
     TelegramMessage.document := None; TelegramMessage.audio := None;
     TelegramMessage.video := None |}.

(** An update with the given message variants and no other update kind. *)
Definition update_with (message edited_message channel_post edited_channel_post
                        : option TelegramMessage.t) : TelegramWebhook.t :=
  {| TelegramWebhook.update_id := 123456789;
     TelegramWebhook.message := message;
     TelegramWebhook.edited_message := edited_message;
     TelegramWebhook.channel_post := channel_post;
     TelegramWebhook.edited_channel_post := edited_channel_post;
     TelegramWebhook.inline_query := None; TelegramWebhook.chosen_inline_result := None;
     TelegramWebhook.callback_query := None; TelegramWebhook.shipping_query := None;
     TelegramWebhook.pre_checkout_query := None; TelegramWebhook.poll := None;
     TelegramWebhook.poll_answer := None; TelegramWebhook.my_chat_member := None;
     TelegramWebhook.chat_member := None; TelegramWebhook.chat_join_request := None |}.

(** A photo message whose text field is present and empty. *)
Definition photo_with_empty_text : TelegramWebhook.t :=
  update_with (Some (message_with (Some "") None (Some [[("file_id", PyStr "AgAD")]])))
    None None None.

Definition hello_message : TelegramMessage.t := message_with (Some "hello") None None.
Definition edit_message : TelegramMessage.t := message_with (Some "edited") None None.
Definition hello_update : TelegramWebhook.t := update_with (Some hello_message) None None None.

(** The body of the end-to-end example of the specification. *)
Definition hello_body : string :=
  ("{" ++ quoted "update_id" ++ ":123456789," ++ quoted "message" ++ ":{"
   ++ quoted "message_id" ++ ":1," ++ quoted "from" ++ ":{" ++ quoted "id" ++ ":987654321,"
   ++ quoted "first_name" ++ ":" ++ quoted "John" ++ "}," ++ quoted "chat" ++ ":{"
   ++ quoted "id" ++ ":987654321," ++ quoted "type" ++ ":" ++ quoted "private" ++ "},"
   ++ quoted "date" ++ ":1708234567," ++ quoted "text" ++ ":" ++ quoted "hello" ++ "}}")%string.

(** An update of a kind that carries no message. *)
Definition poll_body : string :=
  ("{" ++ quoted "update_id" ++ ":5," ++ quoted "poll" ++ ":{}}")%string.

Definition poll_update : TelegramWebhook.t :=
  {| TelegramWebhook.update_id := 5;
     TelegramWebhook.message := None; TelegramWebhook.edited_message := None;
     TelegramWebhook.channel_post := None; TelegramWebhook.edited_channel_post := None;
     TelegramWebhook.inline_query := None; TelegramWebhook.chosen_inline_result := None;
     TelegramWebhook.callback_query := None; TelegramWebhook.shipping_query := None;
     TelegramWebhook.pre_checkout_query := None; TelegramWebhook.poll := Some [];
     TelegramWebhook.poll_answer := None; TelegramWebhook.my_chat_member := None;
     TelegramWebhook.chat_member := None; TelegramWebhook.chat_join_request := None |}.

(** What the JSON decoder and the model validation return on the two bodies
    above; any other body is taken not to be JSON. *)
Definition load_samples (body : string) : Exception + TelegramWebhook.t :=
  if String.eqb body hello_body then inr hello_update
  else if String.eqb body poll_body then inr poll_update
  else inl (JSONDecodeError "Expecting value: line 1 column 1 (char 0)").

(** The agent of the repository; [lower().strip()] is the identity on the
    sample texts, which are lower case without surrounding blanks. *)
Definition rules : Externals :=
  {| load_webhook := load_samples;
     generate_response := AiAgent.keyword_rules (fun s => s) "12:00:00" |}.

(** An agent whose processing raises. *)
Definition failing : Externals :=
  {| load_webhook := load_samples;
     generate_response := fun _ => inl (OtherException "agent unavailable") |}.

Definition with_secret : Config.t :=
  {| Config.WEBHOOK_SECRET_TOKEN := "s3cr3t"; Config.RATE_LIMIT := 100;
     Config.RATE_LIMIT_WINDOW := 60 |}.

Definition limit_of (n : Z) : Config.t :=
  {| Config.WEBHOOK_SECRET_TOKEN := ""; Config.RATE_LIMIT := n;
     Config.RATE_LIMIT_WINDOW := 60 |}.

Definition request_of (token : option string) (body : string) : Request.t :=
  {| Request.client := Some "203.0.113.7"; Request.secret_token := token;
     Request.body := body |}.

(** A dispatched request, an empty body, a body that is not JSON and a
    request over the limit of three. *)
Definition mixed_trace : list (Q * Request.t) :=
  [ (0%Q, request_of None hello_body);
    (1%Q, request_of None "");
    (2%Q, request_of None "invalid json");
    (3%Q, request_of None hello_body) ].

End Samples.

(* ===================================================================== *)
(** ** Start-up check, health and statistics endpoints                     *)
(* ===================================================================== *)

Module Startup.
Import Py.

(** The two settings [Config.validate] reads. *)
Record t : Type := Build {
  TELEGRAM_BOT_TOKEN : string;
  PORT : Z }.




End Startup.

Module Health.
Import Py Models WebhookHandler.

(** The dictionary of [AIAgent.health_check], without its [timestamp]. *)
Module AgentHealth.
Record t : Type := Build {
  status : string;
  processing_count : Z }.
End AgentHealth.

Definition agent_health_check (self : AiAgent.AIAgent.t) : AgentHealth.t :=
  {| AgentHealth.status :=
       if AiAgent.AIAgent.is_ready self then "healthy" else "unhealthy";
     AgentHealth.processing_count := AiAgent.AIAgent.processing_count self |}.

(** The answer of [GET /health], without its [timestamp]. *)
Module Report.
Record t : Type := Build {
  status : string;
  service : string;
  ai_agent : AgentHealth.t;
  webhook_processor : Statistics.t }.
End Report.

Definition health_check (st : Main.Service.t) : Report.t :=
  let ai_health := agent_health_check (Main.Service.ai_agent st) in
  {| Report.status := "healthy";
     Report.service := "Telegram Webhook Service";
     Report.ai_agent := ai_health;
     Report.webhook_processor := get_statistics (Main.Service.webhook_processor st) |}.

End Health.

(* ===================================================================== *)
(** ** Helpers of the statements                                           *)
(* ===================================================================== *)

Module Facts.
Import Py Models WebhookHandler.

(** The times of the calls that were admitted. *)
Fixpoint admitted (times : list Q) (answers : list bool) : list Q :=
  match times, answers with
  | t :: times, true :: answers => t :: admitted times answers
  | _ :: times, false :: answers => admitted times answers
  | _, _ => []
  end.

(** A clock that never goes back: each time is at least the one before. *)
Fixpoint nondecreasing (prev : Q) (times : list Q) : Prop :=
  match times with
  | [] => True
  | t :: rest => (prev <= t)%Q /\ nondecreasing t rest
  end.

(** Every window of the limiter holds at most [n] timestamps. *)
Definition windows_within (n : Z) (self : gmap string (list Q)) : Prop :=
  forall ip window, self !! ip = Some window -> Z.of_nat (List.length window) <= n.

(** A lower-case hexadecimal digit. *)
Definition is_lower_hex_digit (c : ascii) : bool :=
  let n := Hashlib.byte_of c in
  ((48 <=? n) && (n <=? 57)) || ((97 <=? n) && (n <=? 102)).

Definition is_lower_hex (s : string) : bool :=
  forallb is_lower_hex_digit (list_ascii_of_string s).

(** Whether an answer of the endpoint is a returned body. *)
Definition is_ok {A} (r : Exception + A) : bool :=
  match r with inr _ => true | inl _ => false end.

Definition count_ok {A} (l : list (Exception + A)) : Z :=
  Z.of_nat (List.length (List.filter is_ok l)).

(** An environment whose agent is the rule-based one of the repository. *)
Definition with_keyword_rules
    (load : string -> Exception + TelegramWebhook.t)
    (lower_strip : string -> string) (now_hms : string) : Externals :=
  {| load_webhook := load;
     generate_response := AiAgent.keyword_rules lower_strip now_hms |}.

End Facts.

(* ===================================================================== *)
(** * Properties                                                           *)
(* ===================================================================== *)

Import Py Models WebhookHandler.

(** ** Primary message and text extraction (models.py) *)

Lemma get_message_unfold (w : TelegramWebhook.t) :
  TelegramWebhook.get_message w =
  match TelegramWebhook.message w with
  | Some m => Some m
  | None =>
      match TelegramWebhook.edited_message w with
      | Some m => Some m
      | None =>
          match TelegramWebhook.channel_post w with
          | Some m => Some m
          | None => TelegramWebhook.edited_channel_post w
          end
      end
  end.
Proof.
  unfold TelegramWebhook.get_message, or_.
  destruct (TelegramWebhook.message w), (TelegramWebhook.edited_message w),
    (TelegramWebhook.channel_post w); reflexivity.
Qed.

Lemma get_message_none_iff (w : TelegramWebhook.t) :
  TelegramWebhook.get_message w = None <->
    TelegramWebhook.message w = None /\ TelegramWebhook.edited_message w = None /\
    TelegramWebhook.channel_post w = None /\ TelegramWebhook.edited_channel_post w = None.
Proof.
  rewrite get_message_unfold.
  destruct (TelegramWebhook.message w), (TelegramWebhook.edited_message w),
    (TelegramWebhook.channel_post w), (TelegramWebhook.edited_channel_post w);
    split; intros; try congruence; try tauto;
    match goal with H : _ /\ _ |- _ => decompose [and] H; congruence end.
Qed.

(** C7: the primary message is the first present of message, edited
    message, channel post and edited channel post, in that order; with both
    a new and an edited message the new one is selected; and no message is
    selected exactly when the four variants are all absent. *)
Theorem get_message_first_present (w : TelegramWebhook.t) :
  TelegramWebhook.get_message w =
    Stated.first_present
      [ TelegramWebhook.message w; TelegramWebhook.edited_message w;
        TelegramWebhook.channel_post w; TelegramWebhook.edited_channel_post w ]
  /\ (forall m e, TelegramWebhook.message w = Some m ->
                  TelegramWebhook.edited_message w = Some e ->
                  TelegramWebhook.get_message w = Some m)
  /\ (TelegramWebhook.get_message w = None <->
        TelegramWebhook.message w = None /\ TelegramWebhook.edited_message w = None /\
        TelegramWebhook.channel_post w = None /\ TelegramWebhook.edited_channel_post w = None).
Proof.
  split; [|split; [|apply get_message_none_iff]].
  - rewrite get_message_unfold. cbn [Stated.first_present].
    destruct (TelegramWebhook.message w), (TelegramWebhook.edited_message w),
      (TelegramWebhook.channel_post w), (TelegramWebhook.edited_channel_post w);
      reflexivity.
  - intros m e Hm _. rewrite get_message_unfold, Hm. reflexivity.
Qed.

(** A payload with a new and an edited message selects the new one. *)
Lemma get_message_first_present_witness :
  TelegramWebhook.get_message
    (Samples.update_with (Some Samples.hello_message) (Some Samples.edit_message) None None)
  = Some Samples.hello_message.
Proof.
  exact (proj1 (proj2 (get_message_first_present
           (Samples.update_with (Some Samples.hello_message) (Some Samples.edit_message)
              None None)))
         Samples.hello_message Samples.edit_message eq_refl eq_refl).
Defined.

Lemma get_text_unfold (w : TelegramWebhook.t) :
  TelegramWebhook.get_text w =
  match TelegramWebhook.get_message w with
  | None => None
  | Some m =>
      if truthy_str (TelegramMessage.text m) then TelegramMessage.text m
      else TelegramMessage.caption m
  end.
Proof.
  unfold TelegramWebhook.get_text, or_.
  destruct (TelegramWebhook.get_message w); reflexivity.
Qed.

Lemma truthy_str_false (o : option string) :
  truthy_str o = false <-> o = None \/ o = Some "".
Proof.
  destruct o as [[|c s]|]; cbn; split; intros; try tauto; try discriminate;
    try (right; reflexivity); destruct H as [H|H]; discriminate.
Qed.

(** C10 as stated fails: with text and caption both the empty string, the
    extracted text is the empty string, not absent. *)
Lemma get_text_empty_caption_not_absent :
  TelegramWebhook.get_text
    (Samples.update_with (Some (Samples.message_with (Some "") (Some "") None)) None None None)
  = Some ""
  /\ ~ (forall w m,
          TelegramWebhook.get_message w = Some m ->
          (TelegramMessage.text m = None \/ TelegramMessage.text m = Some "") ->
          (TelegramMessage.caption m = None \/ TelegramMessage.caption m = Some "") ->
          TelegramWebhook.get_text w = None).
Proof.
  split; [reflexivity|].
  intros H.
  specialize (H (Samples.update_with (Some (Samples.message_with (Some "") (Some "") None))
                   None None None)
                (Samples.message_with (Some "") (Some "") None)
                eq_refl (or_intror eq_refl) (or_intror eq_refl)).
  discriminate H.
Qed.

(** C10, amended: an empty text is treated as an absent one, and the
    extracted text is then the caption field as it stands.  So with an
    empty text and a caption set the result is the caption; with text and
    caption both absent or empty the result is absent when the caption is
    absent and the empty string when the caption is the empty string; and a
    non-empty text is returned as it is. *)
Theorem get_text_empty_as_absent (w : TelegramWebhook.t) (m : TelegramMessage.t) :
  TelegramWebhook.get_message w = Some m ->
  (TelegramMessage.text m = None \/ TelegramMessage.text m = Some "" ->
     TelegramWebhook.get_text w = TelegramMessage.caption m)
  /\ (forall c, TelegramMessage.text m = Some "" -> TelegramMessage.caption m = Some c ->
        TelegramWebhook.get_text w = Some c)
  /\ (TelegramMessage.text m = None \/ TelegramMessage.text m = Some "" ->
      TelegramMessage.caption m = None \/ TelegramMessage.caption m = Some "" ->
        (TelegramWebhook.get_text w = None <-> TelegramMessage.caption m = None)
        /\ (TelegramWebhook.get_text w = Some "" <-> TelegramMessage.caption m = Some ""))
  /\ (truthy_str (TelegramMessage.text m) = true ->
        TelegramWebhook.get_text w = TelegramMessage.text m).
Proof.
  intros Hm. rewrite get_text_unfold, Hm.
  repeat split; intros.
  - apply truthy_str_false in H. now rewrite H.
  - rewrite H. cbn. assumption.
  - apply truthy_str_false in H. rewrite H in H1. assumption.
  - apply truthy_str_false in H. rewrite H. assumption.
  - apply truthy_str_false in H. rewrite H in H1. assumption.
  - apply truthy_str_false in H. rewrite H. assumption.
  - now rewrite H.
Qed.

Lemma get_text_empty_as_absent_witness :
  TelegramWebhook.get_text
    (Samples.update_with (Some (Samples.message_with (Some "") (Some "a photo") None))
       None None None)
  = Some "a photo".
Proof.
  exact (proj1 (proj2 (get_text_empty_as_absent
           (Samples.update_with (Some (Samples.message_with (Some "") (Some "a photo") None))
              None None None)
           (Samples.message_with (Some "") (Some "a photo") None) eq_refl))
         "a photo" eq_refl eq_refl).
Defined.

(** ** Content type (webhook_handler.py) *)

(** C6 as stated fails: a message whose text is present but empty and that
    carries a photo is classified as a photo, while the first present field
    of the chain is the text. *)
Lemma message_type_empty_text_is_photo :
  _determine_message_type Samples.photo_with_empty_text = "photo"
  /\ Stated.content_type_present Samples.photo_with_empty_text = "text"
  /\ ~ (forall w, _determine_message_type w = Stated.content_type_present w).
Proof.
  split; [reflexivity|]. split; [reflexivity|].
  intros H. specialize (H Samples.photo_with_empty_text). discriminate H.
Qed.

Lemma truthy_str_present (o : option string) :
  o <> Some "" -> truthy_str o = truthy_obj o.
Proof. destruct o as [[|c s]|]; cbn; congruence. Qed.

Lemma truthy_list_present {A} (o : option (list A)) :
  o <> Some [] -> truthy_list o = truthy_obj o.
Proof. destruct o as [[|x l]|]; cbn; congruence. Qed.

(** C6, amended: a field counts when it is present and not empty (a
    non-empty text, a non-empty photo list, and so on).  The content type is
    the first such field of the chain text, photo, document, audio, video,
    entities, and [other] when a message is there and none counts; it is one
    of the eight labels; it is [unknown] exactly when none of the four
    message variants is present; and it is the first present field whenever
    no present field is empty. *)
Theorem message_type_first_nonempty (w : TelegramWebhook.t) :
  match TelegramWebhook.get_message w with
  | None => _determine_message_type w = "unknown"
  | Some m =>
      _determine_message_type w =
        Stated.first_match
          [ (truthy_str (TelegramMessage.text m), "text");
            (truthy_list (TelegramMessage.photo m), "photo");
            (truthy_list (TelegramMessage.document m), "document");
            (truthy_list (TelegramMessage.audio m), "audio");
            (truthy_list (TelegramMessage.video m), "video");
            (truthy_list (TelegramMessage.entities m), "entities") ]
          "other"
      /\ (TelegramMessage.text m <> Some "" -> TelegramMessage.photo m <> Some [] ->
          TelegramMessage.document m <> Some [] -> TelegramMessage.audio m <> Some [] ->
          TelegramMessage.video m <> Some [] -> TelegramMessage.entities m <> Some [] ->
          _determine_message_type w = Stated.content_type_present w)
  end
  /\ In (_determine_message_type w) Stated.content_types
  /\ (_determine_message_type w = "unknown" <->
        TelegramWebhook.message w = None /\ TelegramWebhook.edited_message w = None /\
        TelegramWebhook.channel_post w = None /\ TelegramWebhook.edited_channel_post w = None).
Proof.
  rewrite <- get_message_none_iff.
  unfold _determine_message_type, Stated.content_type_present.
  destruct (TelegramWebhook.get_message w) as [m|].
  - split; [split|split].
    + cbn [Stated.first_match].
      destruct (truthy_str _), (truthy_list (TelegramMessage.photo m)),
        (truthy_list (TelegramMessage.document m)), (truthy_list (TelegramMessage.audio m)),
        (truthy_list (TelegramMessage.video m)), (truthy_list (TelegramMessage.entities m));
        reflexivity.
    + intros Ht Hp Hd Ha Hv He. cbn [Stated.first_match].
      rewrite (truthy_str_present _ Ht), (truthy_list_present _ Hp),
        (truthy_list_present _ Hd), (truthy_list_present _ Ha),
        (truthy_list_present _ Hv), (truthy_list_present _ He).
      reflexivity.
    + unfold Stated.content_types.
      destruct (truthy_str _), (truthy_list (TelegramMessage.photo m)),
        (truthy_list (TelegramMessage.document m)), (truthy_list (TelegramMessage.audio m)),
        (truthy_list (TelegramMessage.video m)), (truthy_list (TelegramMessage.entities m));
        cbn; tauto.
    + destruct (truthy_str _), (truthy_list (TelegramMessage.photo m)),
        (truthy_list (TelegramMessage.document m)), (truthy_list (TelegramMessage.audio m)),
        (truthy_list (TelegramMessage.video m)), (truthy_list (TelegramMessage.entities m));
        split; intros; discriminate.
  - repeat split; cbn; tauto.
Qed.

(** A message with a text and a photo is a text; one with a photo only is a
    photo. *)
Lemma message_type_first_nonempty_witness :
  _determine_message_type
    (Samples.update_with
       (Some (Samples.message_with (Some "hello") None (Some [[("file_id", PyStr "AgAD")]])))
       None None None)
  = Stated.content_type_present
      (Samples.update_with
         (Some (Samples.message_with (Some "hello") None (Some [[("file_id", PyStr "AgAD")]])))
         None None None).
Proof.
  refine (proj2 (proj1 (message_type_first_nonempty
           (Samples.update_with
              (Some (Samples.message_with (Some "hello") None
                       (Some [[("file_id", PyStr "AgAD")]])))
              None None None))) _ _ _ _ _ _); cbn; discriminate.
Defined.

(** ** Signature check (webhook_handler.py, hmac, hashlib) *)

(** The constants of FIPS 180-4, section 4.2.2 and 5.3.3. *)
Example sha256_constants :
  List.length Hashlib.K256 = 64%nat
  /\ nth 0 Hashlib.K256 0 = 0x428a2f98 /\ nth 63 Hashlib.K256 0 = 0xc67178f2
  /\ Hashlib.ha Hashlib.H256_init = 0x6a09e667
  /\ Hashlib.hh Hashlib.H256_init = 0x5be0cd19.
Proof. repeat split. Qed.

(** Test vectors of SHA-256 and HMAC-SHA256. *)
Example sha256_abc :
  Hashlib.hex_of_bytes (Hashlib.sha256 (Hashlib.bytes_of_string "abc"))
  = "ba7816bf8f01cfea414140de5dae2223b00361a396177a9cb410ff61f20015ad".
Proof. vm_compute. reflexivity. Qed.

Example sha256_empty :
  Hashlib.hex_of_bytes (Hashlib.sha256 [])
  = "e3b0c44298fc1c149afbf4c8996fb92427ae41e4649b934ca495991b7852b855".
Proof. vm_compute. reflexivity. Qed.

Example sha256_two_blocks :
  Hashlib.hex_of_bytes (Hashlib.sha256 (repeat 97 64))
  = "ffe054fe7ae0cb6dc65c3af9b61d5209f439851db43d0ba5997337df154668eb".
Proof. vm_compute. reflexivity. Qed.

Example hmac_sha256_fox :
  Hashlib.hmac_hexdigest "key" "The quick brown fox jumps over the lazy dog"
  = "f7bc83f430538424b13298e6aa6fb143ef4d59a14946175997479dbc2d1a3cd8".
Proof. vm_compute. reflexivity. Qed.

Example hmac_sha256_long_key :
  Hashlib.hex_of_bytes (Hashlib.hmac_sha256 (repeat 107 100) (repeat 120 130))
  = "d849e93bb3ac1ff095b92b63718bafe2701ea803a8e68087e1262d1b245e6765".
Proof. vm_compute. reflexivity. Qed.

(** The token that signs the sample body under the sample secret. *)
Example hmac_sha256_hello_body :
  Hashlib.hmac_hexdigest (Config.WEBHOOK_SECRET_TOKEN Samples.with_secret) Samples.hello_body
  = "c920485a30e01c3daebac1a9432ea27b59f8515345000009313ae23a9ab6693a".
Proof. vm_compute. reflexivity. Qed.

Lemma hex_digit_ascii (n : Z) : (Hashlib.byte_of (Hashlib.hex_digit n) <? 128) = true.
Proof.
  destruct n as [|p|p]; try reflexivity.
  do 4 (destruct p as [p|p|]; try reflexivity).
Qed.

Lemma hex_of_bytes_ascii (l : list Z) : is_ascii (Hashlib.hex_of_bytes l) = true.
Proof.
  unfold is_ascii. induction l as [|b l IH]; [reflexivity|].
  cbn [Hashlib.hex_of_bytes list_ascii_of_string forallb].
  rewrite !hex_digit_ascii. exact IH.
Qed.

Lemma hex_of_bytes_length (l : list Z) :
  String.length (Hashlib.hex_of_bytes l) = (2 * List.length l)%nat.
Proof. induction l as [|b l IH]; cbn [Hashlib.hex_of_bytes String.length List.length]; lia. Qed.

Lemma sha256_length (msg : list Z) : List.length (Hashlib.sha256 msg) = 32%nat.
Proof. reflexivity. Qed.

(** The hexadecimal digest is 64 ASCII characters long. *)
Lemma hmac_hexdigest_length (key msg : string) :
  String.length (Hashlib.hmac_hexdigest key msg) = 64%nat.
Proof.
  unfold Hashlib.hmac_hexdigest, Hashlib.hmac_sha256.
  rewrite hex_of_bytes_length, sha256_length. reflexivity.
Qed.

Lemma hmac_hexdigest_ascii (key msg : string) :
  is_ascii (Hashlib.hmac_hexdigest key msg) = true.
Proof. apply hex_of_bytes_ascii. Qed.

Lemma hmac_hexdigest_nonempty (key msg : string) : Hashlib.hmac_hexdigest key msg <> "".
Proof.
  intros E. pose proof (hmac_hexdigest_length key msg) as L. rewrite E in L. discriminate L.
Qed.

Lemma validate_signature_cases (config : Config.t) (request : Request.t) (body : string) :
  _validate_signature config request body =
  match Request.secret_token request with
  | None | Some EmptyString => inl (HTTPException 401 "Missing signature header")
  | Some token =>
      if is_ascii token then
        if String.eqb token (Hashlib.hmac_hexdigest (Config.WEBHOOK_SECRET_TOKEN config) body)
        then inr tt
        else inl (HTTPException 401 "Invalid signature")
      else inl (HTTPException 401 "Signature validation failed")
  end.
Proof.
  unfold _validate_signature, compare_digest.
  destruct (Request.secret_token request) as [[|c token]|]; try reflexivity.
  change (truthy_str (Some (String c token))) with true.
  cbn [negb default from_option id].
  rewrite hmac_hexdigest_ascii, andb_true_r.
  destruct (is_ascii (String c token)); [|reflexivity].
  destruct (String.eqb (String c token) _); reflexivity.
Qed.

(** C4 as stated fails: with a secret configured, a token that is present
    but empty is reported as a missing signature, not as an invalid one. *)
Lemma empty_token_reported_missing :
  check_signature Samples.with_secret
    (Samples.request_of (Some "") Samples.hello_body) Samples.hello_body
  = inl (HTTPException 401 "Missing signature header")
  /\ ~ (forall config request body token,
          Config.WEBHOOK_SECRET_TOKEN config <> "" ->
          Request.secret_token request = Some token ->
          token <> Hashlib.hmac_hexdigest (Config.WEBHOOK_SECRET_TOKEN config) body ->
          check_signature config request body = inl (HTTPException 401 "Invalid signature")).
Proof.
  split; [reflexivity|].
  intros H.
  specialize (H Samples.with_secret (Samples.request_of (Some "") Samples.hello_body)
                Samples.hello_body "").
  assert (E : check_signature Samples.with_secret
                (Samples.request_of (Some "") Samples.hello_body) Samples.hello_body
              = inl (HTTPException 401 "Missing signature header")) by reflexivity.
  rewrite H in E; [discriminate E|discriminate|reflexivity|].
  intros E'. symmetry in E'. exact (hmac_hexdigest_nonempty _ _ E').
Qed.

(** A token with a byte outside ASCII makes the comparison raise; the
    failure is reported as a failed validation. *)
Example non_ascii_token_validation_failed :
  check_signature Samples.with_secret
    (Samples.request_of (Some "é") Samples.hello_body) Samples.hello_body
  = inl (HTTPException 401 "Signature validation failed").
Proof. vm_compute. reflexivity. Qed.

(** C4, amended: with an empty secret the check succeeds for every body and
    token.  With a secret configured it fails with the missing-signature
    error when the token is absent or empty; for a non-empty ASCII token it
    succeeds when the token is the hexadecimal HMAC-SHA256 of the body keyed
    by the secret and fails with the invalid-signature error otherwise; for
    a token with a non-ASCII character it fails with the
    validation-failed error.  Overall it succeeds exactly when the secret
    is empty or the token is that digest, and its result depends on the
    secret, the body and the token only. *)
Theorem check_signature_cases (config : Config.t) (request : Request.t) (body : string) :
  (Config.WEBHOOK_SECRET_TOKEN config = "" -> check_signature config request body = inr tt)
  /\ (Config.WEBHOOK_SECRET_TOKEN config <> "" ->
        check_signature config request body =
        match Request.secret_token request with
        | None | Some EmptyString => inl (HTTPException 401 "Missing signature header")
        | Some token =>
            if is_ascii token then
              if String.eqb token
                   (Hashlib.hmac_hexdigest (Config.WEBHOOK_SECRET_TOKEN config) body)
              then inr tt
              else inl (HTTPException 401 "Invalid signature")
            else inl (HTTPException 401 "Signature validation failed")
        end)
  /\ (check_signature config request body = inr tt <->
        Config.WEBHOOK_SECRET_TOKEN config = "" \/
        Request.secret_token request =
          Some (Hashlib.hmac_hexdigest (Config.WEBHOOK_SECRET_TOKEN config) body))
  /\ (forall config' request',
        Config.WEBHOOK_SECRET_TOKEN config' = Config.WEBHOOK_SECRET_TOKEN config ->
        Request.secret_token request' = Request.secret_token request ->
        check_signature config' request' body = check_signature config request body).
Proof.
  unfold check_signature.
  repeat split.
  - intros ->. reflexivity.
  - intros Hs. apply String.eqb_neq in Hs. rewrite Hs. cbn [negb].
    apply validate_signature_cases.
  - destruct (String.eqb_spec (Config.WEBHOOK_SECRET_TOKEN config) "") as [E|E];
      [left; exact E|].
    cbn [negb]. rewrite validate_signature_cases.
    destruct (Request.secret_token request) as [[|c token]|]; try discriminate.
    destruct (is_ascii (String c token)); [|discriminate].
    destruct (String.eqb_spec (String c token)
                (Hashlib.hmac_hexdigest (Config.WEBHOOK_SECRET_TOKEN config) body)) as [T|T];
      [|discriminate].
    intros _. right. now rewrite T.
  - intros [E|T].
    + rewrite E. reflexivity.
    + destruct (String.eqb (Config.WEBHOOK_SECRET_TOKEN config) ""); [reflexivity|].
      cbn [negb]. rewrite validate_signature_cases, T.
      pose proof (hmac_hexdigest_nonempty (Config.WEBHOOK_SECRET_TOKEN config) body) as N.
      destruct (Hashlib.hmac_hexdigest (Config.WEBHOOK_SECRET_TOKEN config) body)
        as [|c d] eqn:D; [congruence|].
      rewrite <- D, hmac_hexdigest_ascii, String.eqb_refl. reflexivity.
  - intros config' request' Hc Hr. rewrite Hc.
    destruct (String.eqb (Config.WEBHOOK_SECRET_TOKEN config) ""); [reflexivity|].
    cbn [negb]. rewrite !validate_signature_cases, Hc, Hr. reflexivity.
Qed.

(** The digest of the body under the secret is accepted. *)
Lemma check_signature_cases_witness :
  check_signature Samples.with_secret
    (Samples.request_of
       (Some (Hashlib.hmac_hexdigest (Config.WEBHOOK_SECRET_TOKEN Samples.with_secret)
                Samples.hello_body))
       Samples.hello_body)
    Samples.hello_body
  = inr tt.
Proof.
  apply (proj2 (proj1 (proj2 (proj2 (check_signature_cases Samples.with_secret
           (Samples.request_of
              (Some (Hashlib.hmac_hexdigest (Config.WEBHOOK_SECRET_TOKEN Samples.with_secret)
                       Samples.hello_body))
              Samples.hello_body)
           Samples.hello_body))))).
  right. reflexivity.
Defined.

(** ** Rate limiter (webhook_handler.py) *)

Lemma Qgt_bool_iff (x y : Q) : Qgt_bool x y = true <-> (y < x)%Q.
Proof.
  unfold Qgt_bool. rewrite negb_true_iff.
  split.
  - intros H. apply Qnot_le_lt. intros L. apply Qle_bool_iff in L. congruence.
  - intros H. destruct (Qle_bool x y) eqn:E; [|reflexivity].
    apply Qle_bool_iff in E. exfalso. exact (Qlt_not_le _ _ H E).
Qed.

Lemma is_allowed_eq (config : Config.t) (self : gmap string (list Q)) (now : Q)
    (ip : string) :
  is_allowed config self now ip =
    if Z.of_nat (List.length (Stated.newer_than (Stated.window_start config now)
                                (default [] (self !! ip))))
       >=? Config.RATE_LIMIT config
    then (<[ip := Stated.newer_than (Stated.window_start config now)
                    (default [] (self !! ip))]> self,
          false)
    else (<[ip := Stated.newer_than (Stated.window_start config now)
                    (default [] (self !! ip)) ++ [now]]> self,
          true).
Proof.
  unfold is_allowed, Stated.newer_than, Stated.window_start.
  destruct (self !! ip) as [w|] eqn:E; rewrite lookup_insert_eq;
    cbn [default from_option id List.filter];
    destruct (_ >=? _); try reflexivity; now rewrite insert_insert_eq.
Qed.

Lemma newer_than_In (bound : Q) (window : list Q) (t : Q) :
  In t (Stated.newer_than bound window) <-> In t window /\ (bound < t)%Q.
Proof. unfold Stated.newer_than. rewrite filter_In, Qgt_bool_iff. tauto. Qed.

Lemma newer_than_all (bound : Q) (window : list Q) :
  (forall t, In t window -> (bound < t)%Q) -> Stated.newer_than bound window = window.
Proof.
  unfold Stated.newer_than. induction window as [|a w IH]; intros H; [reflexivity|].
  cbn [List.filter]. rewrite (proj2 (Qgt_bool_iff a bound)) by (apply H; now left).
  f_equal. apply IH. intros t Ht. apply H. now right.
Qed.

Lemma newer_than_length (bound : Q) (window : list Q) :
  (List.length (Stated.newer_than bound window) <= List.length window)%nat.
Proof. apply filter_length_le. Qed.

Lemma newer_than_drop_head (bound a : Q) (window : list Q) :
  (a <= bound)%Q ->
  (List.length (Stated.newer_than bound (a :: window)) <= List.length window)%nat.
Proof.
  intros H. unfold Stated.newer_than. cbn [List.filter].
  destruct (Qgt_bool a bound) eqn:E.
  - apply Qgt_bool_iff in E. exfalso. exact (Qlt_not_le _ _ E H).
  - apply filter_length_le.
Qed.

Section Window.
Variables (config : Config.t) (ip : string).

Lemma admissions_within_window (times : list Q) :
  forall (self : gmap string (list Q)) (w : list Q),
    default [] (self !! ip) = w ->
    (forall a b, In a (w ++ times) -> In b times ->
                 (Stated.window_start config b < a)%Q) ->
    Z.of_nat (List.length w + List.length times) <= Config.RATE_LIMIT config ->
    snd (Stated.admissions config self ip times) = repeat true (List.length times)
    /\ default [] (fst (Stated.admissions config self ip times) !! ip) = w ++ times.
Proof.
  induction times as [|now rest IH]; intros self w Hw Hin Hlen.
  - cbn. now rewrite app_nil_r.
  - cbn [Stated.admissions]. rewrite is_allowed_eq, Hw.
    rewrite newer_than_all
      by (intros a Ha; apply Hin; [apply in_or_app; now left | now left]).
    destruct (Z.geb_spec (Z.of_nat (List.length w)) (Config.RATE_LIMIT config)) as [G|G].
    { cbn [List.length] in Hlen. lia. }
    specialize (IH (<[ip := w ++ [now]]> self) (w ++ [now])).
    destruct (Stated.admissions config (<[ip := w ++ [now]]> self) ip rest) as [self' r] eqn:E.
    cbn [fst snd] in *.
    destruct IH as [IH1 IH2].
    + now rewrite lookup_insert_eq.
    + intros a b Ha Hb. apply Hin; [|now right].
      rewrite <- app_assoc in Ha. exact Ha.
    + rewrite length_app. cbn [List.length] in *. lia.
    + split.
      * cbn [List.length repeat]. now rewrite IH1.
      * rewrite IH2, <- app_assoc. reflexivity.
Qed.

End Window.

Lemma default_cons_lookup (self : gmap string (list Q)) (ip : string) (a : Q) (l : list Q) :
  default [] (self !! ip) = a :: l -> self !! ip = Some (a :: l).
Proof. destruct (self !! ip); cbn; congruence. Qed.

(** C3, amended: a call first purges from the client's window every
    timestamp that is not strictly newer than [now - RATE_LIMIT_WINDOW] (the
    older ones and the one equal to that bound); if the remaining count
    reaches the limit it returns false and records nothing, else it appends
    [now] and returns true; the windows of other clients are untouched.
    Consequently, for a client not seen before that issues exactly limit
    requests, each less than the window apart from the others, all are
    admitted; a further request less than the window after each of them is
    rejected and leaves the window as it was; and once the window length or
    more has passed since the first request, a new request is admitted. *)
Theorem is_allowed_sliding_window (config : Config.t) (self : gmap string (list Q))
    (ip : string) :
  (forall now,
      is_allowed config self now ip =
        (if Z.of_nat (List.length (Stated.newer_than (Stated.window_start config now)
                                     (default [] (self !! ip))))
            >=? Config.RATE_LIMIT config
         then (<[ip := Stated.newer_than (Stated.window_start config now)
                         (default [] (self !! ip))]> self,
               false)
         else (<[ip := Stated.newer_than (Stated.window_start config now)
                         (default [] (self !! ip)) ++ [now]]> self,
               true))
      /\ (forall t,
            In t (Stated.newer_than (Stated.window_start config now)
                    (default [] (self !! ip))) <->
            In t (default [] (self !! ip))
            /\ (now - inject_Z (Config.RATE_LIMIT_WINDOW config) < t)%Q)
      /\ (forall ip', ip' <> ip ->
             fst (is_allowed config self now ip) !! ip' = self !! ip'))
  /\ (forall first rest t t',
        self !! ip = None ->
        Z.of_nat (List.length (first :: rest)) = Config.RATE_LIMIT config ->
        (forall a b, In a (first :: rest) -> In b (first :: rest) ->
                     (b - inject_Z (Config.RATE_LIMIT_WINDOW config) < a)%Q) ->
        (forall a, In a (first :: rest) ->
                   (t - inject_Z (Config.RATE_LIMIT_WINDOW config) < a)%Q) ->
        (first + inject_Z (Config.RATE_LIMIT_WINDOW config) <= t')%Q ->
        snd (Stated.admissions config self ip (first :: rest))
          = repeat true (List.length (first :: rest))
        /\ fst (Stated.admissions config self ip (first :: rest)) !! ip
           = Some (first :: rest)
        /\ is_allowed config (fst (Stated.admissions config self ip (first :: rest))) t ip
           = (fst (Stated.admissions config self ip (first :: rest)), false)
        /\ snd (is_allowed config (fst (Stated.admissions config self ip (first :: rest)))
                  t' ip) = true).
Proof.
  split.
  - intros now. split; [apply is_allowed_eq|]. split.
    + intros t. apply newer_than_In.
    + intros ip' Hne. rewrite is_allowed_eq.
      destruct (_ >=? _); cbn [fst]; now rewrite lookup_insert_ne.
  - intros first rest t t' Hfresh Hlim Hpair Ht Ht'.
    destruct (admissions_within_window config ip (first :: rest) self [])
      as [Hall Hwin].
    + now rewrite Hfresh.
    + intros a b Ha Hb. apply Hpair; assumption.
    + cbn [List.length Nat.add] in *. lia.
    + cbn [app] in Hwin. apply default_cons_lookup in Hwin.
      split; [exact Hall|]. split; [exact Hwin|]. split.
      * rewrite is_allowed_eq, Hwin. cbn [default from_option id].
        rewrite newer_than_all by exact Ht.
        rewrite (proj2 (Z.geb_le _ _)) by lia.
        now rewrite insert_id.
      * rewrite is_allowed_eq, Hwin. cbn [default from_option id].
        assert (L : (List.length (Stated.newer_than (Stated.window_start config t')
                                    (first :: rest))
                     <= List.length rest)%nat).
        { apply newer_than_drop_head. unfold Stated.window_start. lra. }
        destruct (Z.geb_spec
                    (Z.of_nat (List.length (Stated.newer_than (Stated.window_start config t')
                                              (first :: rest))))
                    (Config.RATE_LIMIT config)) as [G|G]; [|reflexivity].
        cbn [List.length] in Hlim. lia.
Qed.

(** C3 as stated fails: with limit 1 and a 60 second window, a request at
    time 160 finds the timestamp 100, which is not older than 160 - 60; as
    stated it remains and the request is rejected, but the code purges it
    and admits the request. *)
Lemma boundary_timestamp_is_purged :
  snd (Stated.admissions (Samples.limit_of 1) ∅ "203.0.113.7" [100%Q; 160%Q]) = [true; true]
  /\ fst (Stated.admissions (Samples.limit_of 1) ∅ "203.0.113.7" [100%Q]) !! "203.0.113.7" = Some [100%Q]
  /\ snd (Stated.admit_older_than (Samples.limit_of 1) [100%Q] 160%Q) = false
  /\ ~ (forall config self now ip,
          snd (is_allowed config self now ip)
          = snd (Stated.admit_older_than config (default [] (self !! ip)) now)).
Proof.
  split; [vm_compute; reflexivity|]. split; [vm_compute; reflexivity|].
  split; [vm_compute; reflexivity|].
  intros H.
  specialize (H (Samples.limit_of 1) {[ "203.0.113.7" := [100%Q] ]} 160%Q "203.0.113.7").
  vm_compute in H. discriminate H.
Qed.

(** Limit 2, window 60: requests at 0 and 10 are admitted, one at 59 is
    rejected, one at 61 is admitted. *)
Lemma is_allowed_sliding_window_witness :
  snd (Stated.admissions (Samples.limit_of 2) ∅ "203.0.113.7" [0%Q; 10%Q]) = [true; true]
  /\ fst (Stated.admissions (Samples.limit_of 2) ∅ "203.0.113.7" [0%Q; 10%Q])
       !! "203.0.113.7" = Some [0%Q; 10%Q]
  /\ is_allowed (Samples.limit_of 2)
       (fst (Stated.admissions (Samples.limit_of 2) ∅ "203.0.113.7" [0%Q; 10%Q]))
       59%Q "203.0.113.7"
     = (fst (Stated.admissions (Samples.limit_of 2) ∅ "203.0.113.7" [0%Q; 10%Q]), false)
  /\ snd (is_allowed (Samples.limit_of 2)
            (fst (Stated.admissions (Samples.limit_of 2) ∅ "203.0.113.7" [0%Q; 10%Q]))
            61%Q "203.0.113.7") = true.
Proof.
  apply (proj2 (is_allowed_sliding_window (Samples.limit_of 2) ∅ "203.0.113.7")
           0%Q [10%Q] 59%Q 61%Q).
  - reflexivity.
  - reflexivity.
  - intros a b [<-|[<-|[]]] [<-|[<-|[]]]; reflexivity.
  - intros a [<-|[<-|[]]]; reflexivity.
  - vm_compute. discriminate.
Defined.

(** ** The endpoint (main.py) and the processor *)

Section PipelineFacts.
Context `{Externals} (config : Config.t).

Lemma prepare_dispatch_inr (request : Request.t) (body : string)
    (tw : TelegramWebhook.t) (pw : ProcessedWebhook.t) (req : AIRequest.t) :
  prepare_dispatch config request body = inr (tw, pw, req) ->
  check_signature config request body = inr tt
  /\ _parse_webhook_data body = inr tw
  /\ (exists m, TelegramWebhook.get_message tw = Some m)
  /\ ProcessedWebhook.id pw = None
  /\ ProcessedWebhook.sent_to_ai pw = false
  /\ ProcessedWebhook.ai_response pw = None
  /\ AIRequest.webhook_id req = 0.
Proof.
  unfold prepare_dispatch.
  destruct (check_signature config request body) as [e|[]]; [discriminate|].
  destruct (_parse_webhook_data body) as [e|w]; [discriminate|].
  destruct (TelegramWebhook.get_message w) as [m|] eqn:M; [|discriminate].
  intros E. injection E as <- <- <-. cbn. eauto 10.
Qed.

Lemma prepare_dispatch_outcome (request : Request.t) (body : string) :
  match prepare_dispatch config request body with
  | inr _ =>
      exists w m, check_signature config request body = inr tt
                  /\ _parse_webhook_data body = inr w
                  /\ TelegramWebhook.get_message w = Some m
  | inl e =>
      check_signature config request body = inl e
      \/ (check_signature config request body = inr tt /\ _parse_webhook_data body = inl e)
      \/ (exists w, check_signature config request body = inr tt
                    /\ _parse_webhook_data body = inr w
                    /\ TelegramWebhook.get_message w = None)
  end.
Proof.
  unfold prepare_dispatch.
  destruct (check_signature config request body) as [e|[]]; [now left|].
  destruct (_parse_webhook_data body) as [e|w]; [right; now left|].
  destruct (TelegramWebhook.get_message w) as [m|] eqn:M; eauto 10.
Qed.

Lemma telegram_webhook_rate_limited (st : Main.Service.t) (now : Q) (request : Request.t) :
  snd (is_allowed config (Main.Service.rate_limiter st) now
         (default "unknown" (Request.client request))) = false ->
  Main.telegram_webhook config st now request =
    ({| Main.Service.rate_limiter :=
          fst (is_allowed config (Main.Service.rate_limiter st) now
                 (default "unknown" (Request.client request)));
        Main.Service.webhook_processor := Main.Service.webhook_processor st;
        Main.Service.ai_agent := Main.Service.ai_agent st |},
     inl (HTTPException 429 "Rate limit exceeded")).
Proof.
  intros A. unfold Main.telegram_webhook.
  destruct (is_allowed _ _ _ _) as [rl a]. cbn in A. subst a. reflexivity.
Qed.

Lemma telegram_webhook_empty_body (st : Main.Service.t) (now : Q) (request : Request.t) :
  snd (is_allowed config (Main.Service.rate_limiter st) now
         (default "unknown" (Request.client request))) = true ->
  Request.body request = "" ->
  Main.telegram_webhook config st now request =
    ({| Main.Service.rate_limiter :=
          fst (is_allowed config (Main.Service.rate_limiter st) now
                 (default "unknown" (Request.client request)));
        Main.Service.webhook_processor := Main.Service.webhook_processor st;
        Main.Service.ai_agent := Main.Service.ai_agent st |},
     inl (HTTPException 400 "Empty request body")).
Proof.
  intros A B. unfold Main.telegram_webhook.
  destruct (is_allowed _ _ _ _) as [rl a]. cbn in A. subst a. rewrite B. reflexivity.
Qed.

Lemma telegram_webhook_failed (st : Main.Service.t) (now : Q) (request : Request.t)
    (e : Exception) :
  snd (is_allowed config (Main.Service.rate_limiter st) now
         (default "unknown" (Request.client request))) = true ->
  Request.body request <> "" ->
  prepare_dispatch config request (Request.body request) = inl e ->
  Main.telegram_webhook config st now request =
    ({| Main.Service.rate_limiter :=
          fst (is_allowed config (Main.Service.rate_limiter st) now
                 (default "unknown" (Request.client request)));
        Main.Service.webhook_processor :=
          {| WebhookProcessor.processed_count :=
               WebhookProcessor.processed_count (Main.Service.webhook_processor st);
             WebhookProcessor.error_count :=
               WebhookProcessor.error_count (Main.Service.webhook_processor st) + 1 |};
        Main.Service.ai_agent := Main.Service.ai_agent st |},
     inl (HTTPException 400 ("Webhook processing failed: " ++ str e)%string)).
Proof.
  intros A B P. unfold Main.telegram_webhook, handle_webhook, process_telegram_webhook.
  destruct (is_allowed _ _ _ _) as [rl a]. cbn in A. subst a.
  apply String.eqb_neq in B. rewrite B, P. reflexivity.
Qed.

Lemma telegram_webhook_dispatched (st : Main.Service.t) (now : Q) (request : Request.t)
    (tw : TelegramWebhook.t) (pw : ProcessedWebhook.t) (req : AIRequest.t) :
  snd (is_allowed config (Main.Service.rate_limiter st) now
         (default "unknown" (Request.client request))) = true ->
  Request.body request <> "" ->
  prepare_dispatch config request (Request.body request) = inr (tw, pw, req) ->
  Main.telegram_webhook config st now request =
    ({| Main.Service.rate_limiter :=
          fst (is_allowed config (Main.Service.rate_limiter st) now
                 (default "unknown" (Request.client request)));
        Main.Service.webhook_processor :=
          {| WebhookProcessor.processed_count :=
               WebhookProcessor.processed_count (Main.Service.webhook_processor st) + 1;
             WebhookProcessor.error_count :=
               WebhookProcessor.error_count (Main.Service.webhook_processor st) |};
        Main.Service.ai_agent :=
          fst (AiAgent.send_to_ai_agent (Main.Service.ai_agent st) req) |},
     inr {| WebhookResponse.success := true;
            WebhookResponse.message := "Webhook processed successfully";
            WebhookResponse.processed_data := Some
              [ ("update_id", PyInt (ProcessedWebhook.update_id pw));
                ("chat_id", Main.opt_int (ProcessedWebhook.chat_id pw));
                ("user_id", Main.opt_int (ProcessedWebhook.user_id pw));
                ("message_type", PyStr (ProcessedWebhook.message_type pw));
                ("sent_to_ai",
                 PyBool (AIResponse.success
                           (snd (AiAgent.send_to_ai_agent (Main.Service.ai_agent st) req))));
                ("ai_response",
                 Main.opt_str (AIResponse.response_text
                                 (snd (AiAgent.send_to_ai_agent (Main.Service.ai_agent st) req)))) ] |}).
Proof.
  intros A B P. unfold Main.telegram_webhook, handle_webhook, process_telegram_webhook.
  destruct (is_allowed _ _ _ _) as [rl a]. cbn in A. subst a.
  apply String.eqb_neq in B. rewrite B, P.
  cbn [negb Main.Service.webhook_processor Main.Service.ai_agent Main.Service.rate_limiter].
  destruct (AiAgent.send_to_ai_agent (Main.Service.ai_agent st) req) as [agent resp].
  reflexivity.
Qed.

End PipelineFacts.

Section PipelineClaims.
Context `{Externals} (config : Config.t).

(** C5: a request with an empty body that the rate limiter lets through
    fails with the empty-body error (status 400), whatever the secret and
    the signature token are; the webhook processor is not entered, so
    neither the signature check nor the parser runs and no counter
    moves. *)
Theorem empty_body_rejected_before_signature
    (st : Main.Service.t) (now : Q) (request : Request.t) :
  Request.body request = "" ->
  snd (is_allowed config (Main.Service.rate_limiter st) now
         (default "unknown" (Request.client request))) = true ->
  snd (Main.telegram_webhook config st now request)
    = inl (HTTPException 400 "Empty request body")
  /\ Main.status_code (snd (Main.telegram_webhook config st now request)) = 400
  /\ Main.Service.webhook_processor (fst (Main.telegram_webhook config st now request))
     = Main.Service.webhook_processor st
  /\ Main.Service.ai_agent (fst (Main.telegram_webhook config st now request))
     = Main.Service.ai_agent st.
Proof.
  intros B A. rewrite (telegram_webhook_empty_body config st now request A B).
  repeat split.
Qed.

(** C9: whenever a request reaches the dispatch step, the record built for
    it carries no identifier and the request sent to the agent has
    [webhook_id] 0 (echoed in the agent's response). *)
Theorem dispatch_webhook_id_zero (request : Request.t) (body : string)
    (tw : TelegramWebhook.t) (pw : ProcessedWebhook.t) (req : AIRequest.t) :
  prepare_dispatch config request body = inr (tw, pw, req) ->
  ProcessedWebhook.id pw = None
  /\ AIRequest.webhook_id req = 0
  /\ (forall agent, AIResponse.webhook_id (snd (AiAgent.send_to_ai_agent agent req)) = 0).
Proof.
  intros P. apply prepare_dispatch_inr in P.
  destruct P as (_ & _ & _ & Hid & _ & _ & Hreq).
  split; [exact Hid|]. split; [exact Hreq|].
  intros agent. unfold AiAgent.send_to_ai_agent, AiAgent.process_webhook.
  destruct (generate_response req); exact Hreq.
Qed.

(** C8: when the agent's processing raises [e] on a dispatched request, the
    agent returns a response with [success] false and [error_message] the
    text of [e]; the processor still returns its record, with [sent_to_ai]
    false; the endpoint answers 200 with [sent_to_ai] false; and the request
    is counted as processed, not as an error. *)
Theorem responder_failure_is_captured
    (st : Main.Service.t) (now : Q) (request : Request.t)
    (tw : TelegramWebhook.t) (pw : ProcessedWebhook.t) (req : AIRequest.t) (e : Exception) :
  snd (is_allowed config (Main.Service.rate_limiter st) now
         (default "unknown" (Request.client request))) = true ->
  Request.body request <> "" ->
  prepare_dispatch config request (Request.body request) = inr (tw, pw, req) ->
  generate_response req = inl e ->
  (forall agent,
      snd (AiAgent.send_to_ai_agent agent req)
      = {| AIResponse.webhook_id := AIRequest.webhook_id req;
           AIResponse.success := false;
           AIResponse.response_text := None;
           AIResponse.error_message := Some (str e) |})
  /\ (forall self agent,
        snd (process_telegram_webhook config self agent request (Request.body request))
        = inr pw
        /\ ProcessedWebhook.sent_to_ai pw = false)
  /\ snd (Main.telegram_webhook config st now request)
     = inr {| WebhookResponse.success := true;
              WebhookResponse.message := "Webhook processed successfully";
              WebhookResponse.processed_data := Some
                [ ("update_id", PyInt (ProcessedWebhook.update_id pw));
                  ("chat_id", Main.opt_int (ProcessedWebhook.chat_id pw));
                  ("user_id", Main.opt_int (ProcessedWebhook.user_id pw));
                  ("message_type", PyStr (ProcessedWebhook.message_type pw));
                  ("sent_to_ai", PyBool false);
                  ("ai_response", PyNone) ] |}
  /\ Main.status_code (snd (Main.telegram_webhook config st now request)) = 200
  /\ WebhookProcessor.processed_count
       (Main.Service.webhook_processor (fst (Main.telegram_webhook config st now request)))
     = WebhookProcessor.processed_count (Main.Service.webhook_processor st) + 1
  /\ WebhookProcessor.error_count
       (Main.Service.webhook_processor (fst (Main.telegram_webhook config st now request)))
     = WebhookProcessor.error_count (Main.Service.webhook_processor st).
Proof.
  intros A B P G.
  assert (S : forall agent,
             snd (AiAgent.send_to_ai_agent agent req)
             = {| AIResponse.webhook_id := AIRequest.webhook_id req;
                  AIResponse.success := false;
                  AIResponse.response_text := None;
                  AIResponse.error_message := Some (str e) |}).
  { intros agent. unfold AiAgent.send_to_ai_agent, AiAgent.process_webhook.
    rewrite G. reflexivity. }
  split; [exact S|]. split.
  - intros self agent. pose proof (prepare_dispatch_inr config _ _ _ _ _ P) as
      (_ & _ & _ & Hid & Hsent & Hai & _).
    split; [|exact Hsent].
    unfold process_telegram_webhook. rewrite P.
    specialize (S agent).
    destruct (AiAgent.send_to_ai_agent agent req) as [agent' resp]. cbn [snd] in *.
    subst resp. cbn [AIResponse.success AIResponse.response_text].
    destruct pw; cbn in *. subst. reflexivity.
  - rewrite (telegram_webhook_dispatched config st now request tw pw req A B P).
    cbn [fst snd]. rewrite S. cbn. repeat split.
Qed.

End PipelineClaims.

(** The agent is only ever asked about requests whose [webhook_id] is 0:
    two agents that agree on those requests give the same processing. *)
Lemma agent_only_asked_with_webhook_id_zero (E1 E2 : Externals) (config : Config.t)
    (self : WebhookProcessor.t) (agent : AiAgent.AIAgent.t) (request : Request.t)
    (body : string) :
  (forall b, @load_webhook E1 b = @load_webhook E2 b) ->
  (forall r, AIRequest.webhook_id r = 0 -> @generate_response E1 r = @generate_response E2 r) ->
  @process_telegram_webhook E1 config self agent request body
  = @process_telegram_webhook E2 config self agent request body.
Proof.
  intros L G.
  assert (P : @prepare_dispatch E1 config request body
              = @prepare_dispatch E2 config request body).
  { unfold prepare_dispatch, _parse_webhook_data. now rewrite L. }
  unfold process_telegram_webhook. rewrite <- P.
  destruct (@prepare_dispatch E1 config request body) as [e|[[tw pw] req]] eqn:D;
    [reflexivity|].
  apply (prepare_dispatch_inr (H := E1)) in D. destruct D as (_ & _ & _ & _ & _ & _ & Z0).
  unfold AiAgent.send_to_ai_agent, AiAgent.process_webhook.
  now rewrite (G req Z0).
Qed.

(** An empty body sent with a wrong token under a configured secret. *)
Lemma empty_body_rejected_before_signature_witness :
  check_signature Samples.with_secret (Samples.request_of (Some "0123abcd") "") ""
  = inl (HTTPException 401 "Invalid signature")
  /\ snd (Main.telegram_webhook (H := Samples.rules) Samples.with_secret Main.service_init 0%Q
            (Samples.request_of (Some "0123abcd") ""))
     = inl (HTTPException 400 "Empty request body").
Proof.
  split; [vm_compute; reflexivity|].
  apply (empty_body_rejected_before_signature (H := Samples.rules) Samples.with_secret
           Main.service_init 0%Q (Samples.request_of (Some "0123abcd") ""));
    reflexivity.
Defined.

(** The end-to-end example reaches the dispatch step. *)
Lemma dispatch_webhook_id_zero_witness :
  exists tw pw req,
    prepare_dispatch (H := Samples.rules) Config.default
      (Samples.request_of None Samples.hello_body) Samples.hello_body = inr (tw, pw, req)
    /\ AIRequest.webhook_id req = 0.
Proof.
  eexists _, _, _. split; [vm_compute; reflexivity|].
  refine (proj1 (proj2 (dispatch_webhook_id_zero (H := Samples.rules) Config.default
            (Samples.request_of None Samples.hello_body) Samples.hello_body _ _ _ _))).
  vm_compute; reflexivity.
Defined.

(** The end-to-end example with an agent that raises. *)
Lemma responder_failure_is_captured_witness :
  Main.status_code
    (snd (Main.telegram_webhook (H := Samples.failing) Config.default Main.service_init 0%Q
            (Samples.request_of None Samples.hello_body))) = 200.
Proof.
  refine (proj1 (proj2 (proj2 (proj2 (responder_failure_is_captured (H := Samples.failing)
            Config.default Main.service_init 0%Q (Samples.request_of None Samples.hello_body)
            _ _ _ (OtherException "agent unavailable") _ _ _ _))))).
  - reflexivity.
  - discriminate.
  - vm_compute; reflexivity.
  - reflexivity.
Defined.

Section Accounting.
Context `{Externals} (config : Config.t).

Lemma count_cons (p : Stated.Outcome -> bool) (o : Stated.Outcome) (l : list Stated.Outcome) :
  Stated.count p (o :: l) = Stated.bump (p o) + Stated.count p l.
Proof.
  unfold Stated.count, Stated.bump. cbn [List.filter].
  destruct (p o); cbn [List.length]; lia.
Qed.

(** What one request does to the answer and to the two counters, by the
    step at which it ends. *)
Lemma telegram_webhook_by_outcome (st : Main.Service.t) (now : Q) (request : Request.t) :
  match Stated.outcome config st now request with
  | Stated.RateLimited =>
      snd (Main.telegram_webhook config st now request)
      = inl (HTTPException 429 "Rate limit exceeded")
  | Stated.EmptyBody =>
      snd (Main.telegram_webhook config st now request)
      = inl (HTTPException 400 "Empty request body")
  | Stated.Unauthorized =>
      exists e, check_signature config request (Request.body request) = inl e
                /\ snd (Main.telegram_webhook config st now request)
                   = inl (HTTPException 400 ("Webhook processing failed: " ++ str e)%string)
  | Stated.BadRequest =>
      exists e, snd (Main.telegram_webhook config st now request)
                = inl (HTTPException 400 ("Webhook processing failed: " ++ str e)%string)
  | Stated.Dispatched =>
      exists r, snd (Main.telegram_webhook config st now request) = inr r
  end
  /\ WebhookProcessor.processed_count
       (Main.Service.webhook_processor (fst (Main.telegram_webhook config st now request)))
     = WebhookProcessor.processed_count (Main.Service.webhook_processor st)
       + Stated.bump (Stated.Outcome_eqb (Stated.outcome config st now request) Stated.Dispatched)
  /\ WebhookProcessor.error_count
       (Main.Service.webhook_processor (fst (Main.telegram_webhook config st now request)))
     = WebhookProcessor.error_count (Main.Service.webhook_processor st)
       + Stated.bump (Stated.processor_failure (Stated.outcome config st now request)).
Proof.
  unfold Stated.outcome.
  destruct (snd (is_allowed config (Main.Service.rate_limiter st) now
                   (default "unknown" (Request.client request)))) eqn:A; cbn [negb].
  2:{ rewrite (telegram_webhook_rate_limited config st now request A). cbn.
      split; [reflexivity|lia]. }
  destruct (String.eqb_spec (Request.body request) "") as [B|B].
  { rewrite (telegram_webhook_empty_body config st now request A B). cbn.
    split; [reflexivity|lia]. }
  pose proof (prepare_dispatch_outcome config request (Request.body request)) as P.
  destruct (prepare_dispatch config request (Request.body request)) as [e|[[tw pw] req]] eqn:D.
  - rewrite (telegram_webhook_failed config st now request e A B D). cbn [fst snd].
    destruct P as [S|[[S Pa]|(w & S & Pa & M)]]; rewrite S.
    + cbn. split; [eauto|lia].
    + rewrite Pa. cbn. split; [eauto|lia].
    + rewrite Pa, M. cbn. split; [eauto|lia].
  - rewrite (telegram_webhook_dispatched config st now request tw pw req A B D).
    destruct P as (w & m & S & Pa & M). rewrite S, Pa, M. cbn. split; [eauto|lia].
Qed.

Lemma serve_counters (trace : list (Q * Request.t)) :
  forall st : Main.Service.t,
    WebhookProcessor.processed_count
      (Main.Service.webhook_processor (fst (Main.serve config st trace)))
    = WebhookProcessor.processed_count (Main.Service.webhook_processor st)
      + Stated.count (fun o => Stated.Outcome_eqb o Stated.Dispatched)
          (Stated.outcomes config st trace)
    /\ WebhookProcessor.error_count
         (Main.Service.webhook_processor (fst (Main.serve config st trace)))
       = WebhookProcessor.error_count (Main.Service.webhook_processor st)
         + Stated.count Stated.processor_failure (Stated.outcomes config st trace).
Proof.
  induction trace as [|[now request] rest IH]; intros st.
  - cbn. unfold Stated.count. cbn. lia.
  - cbn [Main.serve Stated.outcomes]. rewrite !count_cons.
    pose proof (telegram_webhook_by_outcome st now request) as (_ & Hp & He).
    destruct (Main.telegram_webhook config st now request) as [st1 r] eqn:E.
    cbn [fst] in *. specialize (IH st1).
    destruct (Main.serve config st1 rest) as [st2 rs]. cbn [fst] in *.
    lia.
Qed.

(** C2, amended: starting from zero counters, after any sequence of
    requests the statistics report as [processed_count] the number of
    requests that reached the dispatch step, as [error_count] the number of
    requests that failed inside the webhook processor (signature or
    parsing, a payload without message included), and as [success_rate]
    their ratio processed / (processed + errors), 0 when both are 0.
    Rate-limited and empty-body rejections are in neither count. *)
Theorem statistics_count_processor_outcomes (st : Main.Service.t) (trace : list (Q * Request.t)) :
  Main.Service.webhook_processor st = webhook_processor_init ->
  Statistics.processed_count
    (get_statistics (Main.Service.webhook_processor (fst (Main.serve config st trace))))
  = Stated.count (fun o => Stated.Outcome_eqb o Stated.Dispatched)
      (Stated.outcomes config st trace)
  /\ Statistics.error_count
       (get_statistics (Main.Service.webhook_processor (fst (Main.serve config st trace))))
     = Stated.count Stated.processor_failure (Stated.outcomes config st trace)
  /\ Statistics.success_rate
       (get_statistics (Main.Service.webhook_processor (fst (Main.serve config st trace))))
     = (if Stated.count (fun o => Stated.Outcome_eqb o Stated.Dispatched)
             (Stated.outcomes config st trace)
           + Stated.count Stated.processor_failure (Stated.outcomes config st trace) >? 0
        then (inject_Z (Stated.count (fun o => Stated.Outcome_eqb o Stated.Dispatched)
                          (Stated.outcomes config st trace))
              / inject_Z (Stated.count (fun o => Stated.Outcome_eqb o Stated.Dispatched)
                            (Stated.outcomes config st trace)
                          + Stated.count Stated.processor_failure
                              (Stated.outcomes config st trace)))%Q
        else 0%Q).
Proof.
  intros Z0. destruct (serve_counters trace st) as [Hp He].
  rewrite Z0 in Hp, He. cbn [webhook_processor_init WebhookProcessor.processed_count
                              WebhookProcessor.error_count] in Hp, He.
  rewrite Z.add_0_l in Hp, He.
  unfold get_statistics.
  cbn [Statistics.processed_count Statistics.error_count Statistics.success_rate].
  rewrite Hp, He. repeat split.
Qed.

End Accounting.

Section StatusCodes.
Context `{Externals} (config : Config.t).

(** Every failure of the signature check of an admitted, non-empty request
    leaves the endpoint as a 400: the handler of [process_telegram_webhook]
    catches the 401 exception with all others. *)
Lemma signature_failure_answered_400 (st : Main.Service.t) (now : Q) (request : Request.t)
    (e : Exception) :
  snd (is_allowed config (Main.Service.rate_limiter st) now
         (default "unknown" (Request.client request))) = true ->
  Request.body request <> "" ->
  check_signature config request (Request.body request) = inl e ->
  snd (Main.telegram_webhook config st now request)
    = inl (HTTPException 400 ("Webhook processing failed: " ++ str e)%string)
  /\ Main.status_code (snd (Main.telegram_webhook config st now request)) = 400.
Proof.
  intros A B S.
  assert (D : prepare_dispatch config request (Request.body request) = inl e).
  { unfold prepare_dispatch. rewrite S. reflexivity. }
  rewrite (telegram_webhook_failed config st now request e A B D). split; reflexivity.
Qed.

End StatusCodes.

(** C1, at the failing input: with a secret configured, a request without
    token, or with a wrong one, fails the signature check with a 401
    exception, and the endpoint answers it with status 400. *)
Theorem unauthorized_request_answered_400 :
  check_signature Samples.with_secret
    (Samples.request_of None Samples.hello_body) Samples.hello_body
  = inl (HTTPException 401 "Missing signature header")
  /\ snd (Main.telegram_webhook (H := Samples.rules) Samples.with_secret Main.service_init 0%Q
            (Samples.request_of None Samples.hello_body))
     = inl (HTTPException 400 "Webhook processing failed: 401: Missing signature header")
  /\ Main.status_code
       (snd (Main.telegram_webhook (H := Samples.rules) Samples.with_secret Main.service_init
               0%Q (Samples.request_of None Samples.hello_body))) = 400
  /\ check_signature Samples.with_secret
       (Samples.request_of (Some "0123abcd") Samples.hello_body) Samples.hello_body
     = inl (HTTPException 401 "Invalid signature")
  /\ Main.status_code
       (snd (Main.telegram_webhook (H := Samples.rules) Samples.with_secret Main.service_init
               0%Q (Samples.request_of (Some "0123abcd") Samples.hello_body))) = 400.
Proof.
  do 4 (split; [vm_compute; reflexivity|]). vm_compute; reflexivity.
Qed.

(** C2 as stated fails: an empty-body rejection and a rate-limited request
    are terminal failures at steps 1 and 2, and both leave [error_count] at
    0. *)
Lemma rejections_before_the_processor_not_counted :
  Stated.outcomes (H := Samples.rules) Config.default Main.service_init
    [(0%Q, Samples.request_of None "")] = [Stated.EmptyBody]
  /\ Stated.count Stated.terminal_failure [Stated.EmptyBody] = 1
  /\ Statistics.error_count
       (get_statistics
          (Main.Service.webhook_processor
             (fst (Main.serve (H := Samples.rules) Config.default Main.service_init
                     [(0%Q, Samples.request_of None "")])))) = 0
  /\ Stated.outcomes (H := Samples.rules) (Samples.limit_of 0) Main.service_init
       [(0%Q, Samples.request_of None Samples.hello_body)] = [Stated.RateLimited]
  /\ Statistics.error_count
       (get_statistics
          (Main.Service.webhook_processor
             (fst (Main.serve (H := Samples.rules) (Samples.limit_of 0) Main.service_init
                     [(0%Q, Samples.request_of None Samples.hello_body)])))) = 0
  /\ ~ (forall (E : Externals) (config : Config.t) (trace : list (Q * Request.t)),
          Statistics.error_count
            (get_statistics
               (Main.Service.webhook_processor
                  (fst (Main.serve config Main.service_init trace))))
          = Stated.count Stated.terminal_failure
              (Stated.outcomes config Main.service_init trace)).
Proof.
  do 5 (split; [vm_compute; reflexivity|]).
  intros C.
  specialize (C Samples.rules Config.default [(0%Q, Samples.request_of None "")]).
  vm_compute in C. discriminate C.
Qed.

(** One dispatched request, one empty body, one body that is not JSON and
    one rate-limited request: one processed, one error. *)
Lemma statistics_count_processor_outcomes_witness :
  Stated.outcomes (H := Samples.rules) (Samples.limit_of 3) Main.service_init Samples.mixed_trace
  = [Stated.Dispatched; Stated.EmptyBody; Stated.BadRequest; Stated.RateLimited]
  /\ Statistics.processed_count
       (get_statistics
          (Main.Service.webhook_processor
             (fst (Main.serve (H := Samples.rules) (Samples.limit_of 3) Main.service_init
                     Samples.mixed_trace)))) = 1
  /\ Statistics.error_count
       (get_statistics
          (Main.Service.webhook_processor
             (fst (Main.serve (H := Samples.rules) (Samples.limit_of 3) Main.service_init
                     Samples.mixed_trace)))) = 1.
Proof.
  split; [vm_compute; reflexivity|].
  destruct (statistics_count_processor_outcomes (H := Samples.rules) (Samples.limit_of 3)
              Main.service_init Samples.mixed_trace eq_refl) as (Hp & He & _).
  split; [rewrite Hp|rewrite He]; vm_compute; reflexivity.
Defined.

(* ===================================================================== *)
(** * Further properties of the code                                     *)
(* ===================================================================== *)

(** ** More on the rate limiter *)

Lemma newer_than_newer_than (b1 b2 : Q) (window : list Q) :
  (b1 <= b2)%Q ->
  Stated.newer_than b2 (Stated.newer_than b1 window) = Stated.newer_than b2 window.
Proof.
  intros L. unfold Stated.newer_than.
  induction window as [|a w IH]; [reflexivity|].
  cbn [List.filter].
  destruct (Qgt_bool a b1) eqn:E1; cbn [List.filter]; destruct (Qgt_bool a b2) eqn:E2;
    rewrite ?IH; try reflexivity.
  exfalso. apply Qgt_bool_iff in E2.
  assert (F : Qgt_bool a b1 = true) by (apply Qgt_bool_iff; lra).
  congruence.
Qed.

Lemma newer_than_app (b : Q) (l1 l2 : list Q) :
  Stated.newer_than b (l1 ++ l2) = Stated.newer_than b l1 ++ Stated.newer_than b l2.
Proof. unfold Stated.newer_than. apply List.filter_app. Qed.

Lemma window_start_mono (config : Config.t) (t1 t2 : Q) :
  (t1 <= t2)%Q -> (Stated.window_start config t1 <= Stated.window_start config t2)%Q.
Proof. unfold Stated.window_start. lra. Qed.

Lemma is_allowed_lookup (config : Config.t) (self : gmap string (list Q)) (now : Q)
    (ip : string) :
  fst (is_allowed config self now ip) !! ip =
    Some (if snd (is_allowed config self now ip)
          then Stated.newer_than (Stated.window_start config now) (default [] (self !! ip))
               ++ [now]
          else Stated.newer_than (Stated.window_start config now) (default [] (self !! ip))).
Proof.
  rewrite is_allowed_eq. destruct (_ >=? _); cbn [fst snd]; now rewrite lookup_insert_eq.
Qed.

(** X3: a rejected call is not recorded, so it has no influence on what the
    limiter decides later: after a rejection at [t], a call at any later
    time gives the answer and the state it would have given had the
    rejected call never been made. *)
Theorem rejection_leaves_no_trace (config : Config.t) (self : gmap string (list Q))
    (t now : Q) (ip : string) :
  snd (is_allowed config self t ip) = false ->
  (t <= now)%Q ->
  is_allowed config (fst (is_allowed config self t ip)) now ip
  = is_allowed config self now ip.
Proof.
  intros R L.
  rewrite (is_allowed_eq config (fst (is_allowed config self t ip)) now ip).
  rewrite is_allowed_lookup, R. cbn [default from_option id].
  rewrite newer_than_newer_than by (apply window_start_mono; exact L).
  rewrite (is_allowed_eq config self now ip).
  rewrite (is_allowed_eq config self t ip) in R |- *.
  destruct (Z.of_nat (List.length (Stated.newer_than (Stated.window_start config t)
                                     (default [] (self !! ip))))
            >=? Config.RATE_LIMIT config); [|discriminate R].
  cbn [fst]. destruct (_ >=? _); now rewrite insert_insert_eq.
Qed.

(** Limit 1, window 60: a call rejected at 130 does not change the call at 161. *)
Lemma rejection_leaves_no_trace_witness :
  is_allowed (Samples.limit_of 1)
    (fst (is_allowed (Samples.limit_of 1) {[ "203.0.113.7" := [100%Q] ]} 130%Q "203.0.113.7"))
    161%Q "203.0.113.7"
  = is_allowed (Samples.limit_of 1) {[ "203.0.113.7" := [100%Q] ]} 161%Q "203.0.113.7".
Proof.
  apply (rejection_leaves_no_trace (Samples.limit_of 1) {[ "203.0.113.7" := [100%Q] ]}
           130%Q 161%Q "203.0.113.7").
  - vm_compute. reflexivity.
  - vm_compute. discriminate.
Defined.

(** X4: the limiter never evicts a client: after a call its keys are the
    former keys and the caller, rejected or not. *)
Theorem is_allowed_keeps_every_client (config : Config.t) (self : gmap string (list Q))
    (now : Q) (ip : string) :
  dom (fst (is_allowed config self now ip)) = {[ ip ]} ∪ dom self.
Proof.
  rewrite is_allowed_eq. destruct (_ >=? _); cbn [fst]; now rewrite dom_insert_L.
Qed.

Lemma is_allowed_windows_within (config : Config.t) (self : gmap string (list Q))
    (now : Q) (ip : string) :
  Facts.windows_within (Z.max 0 (Config.RATE_LIMIT config)) self ->
  Facts.windows_within (Z.max 0 (Config.RATE_LIMIT config))
    (fst (is_allowed config self now ip)).
Proof.
  intros I ip' w H.
  destruct (decide (ip' = ip)) as [->|N].
  - rewrite is_allowed_lookup in H. injection H as <-.
    assert (K : (List.length (Stated.newer_than (Stated.window_start config now)
                                (default [] (self !! ip)))
                 <= List.length (default [] (self !! ip)))%nat)
      by apply newer_than_length.
    assert (B : Z.of_nat (List.length (default [] (self !! ip)))
                <= Z.max 0 (Config.RATE_LIMIT config)).
    { destruct (self !! ip) as [l|] eqn:E; cbn [default from_option id List.length].
      - exact (I ip l E).
      - lia. }
    rewrite is_allowed_eq.
    destruct (Z.geb_spec
                (Z.of_nat (List.length (Stated.newer_than (Stated.window_start config now)
                                          (default [] (self !! ip)))))
                (Config.RATE_LIMIT config)) as [G|G]; cbn [snd].
    + lia.
    + rewrite length_app. cbn [List.length]. lia.
  - rewrite is_allowed_eq in H.
    destruct (_ >=? _); cbn [fst] in H; rewrite lookup_insert_ne in H by congruence;
      exact (I ip' w H).
Qed.

Lemma last_cons_default {A} (l : list A) :
  forall a d : A, List.last (a :: l) d = List.last l a.
Proof.
  induction l as [|b l IH]; intros a d; [reflexivity|].
  change (List.last (a :: b :: l) d) with (List.last (b :: l) d).
  now rewrite (IH b d), (IH b a).
Qed.

Section Trailing.
Variables (config : Config.t) (ip : string).
Hypothesis window_positive : 0 < Config.RATE_LIMIT_WINDOW config.

Lemma now_is_newer (now : Q) : (Stated.window_start config now < now)%Q.
Proof.
  unfold Stated.window_start.
  assert (0 < inject_Z (Config.RATE_LIMIT_WINDOW config))%Q.
  { change 0%Q with (inject_Z 0). rewrite <- Zlt_Qlt. exact window_positive. }
  lra.
Qed.

Lemma admissions_trailing (times : list Q) :
  forall (self : gmap string (list Q)) (prev : Q) (adm : list Q),
    default [] (self !! ip) = Stated.newer_than (Stated.window_start config prev) adm ->
    Facts.nondecreasing prev times ->
    default [] (fst (Stated.admissions config self ip times) !! ip)
    = Stated.newer_than (Stated.window_start config (List.last times prev))
        (adm ++ Facts.admitted times (snd (Stated.admissions config self ip times))).
Proof.
  induction times as [|now rest IH]; intros self prev adm Hw Hs.
  - cbn. now rewrite app_nil_r.
  - destruct Hs as [Hp Hs]. cbn [Stated.admissions].
    pose proof (is_allowed_lookup config self now ip) as Hl.
    rewrite Hw, newer_than_newer_than in Hl by (apply window_start_mono; exact Hp).
    destruct (is_allowed config self now ip) as [self1 a] eqn:E. cbn [fst snd] in Hl.
    rewrite last_cons_default.
    destruct a.
    + specialize (IH self1 now (adm ++ [now])).
      destruct (Stated.admissions config self1 ip rest) as [self2 r] eqn:E2.
      cbn [fst snd] in *. cbn [Facts.admitted].
      rewrite IH; [now rewrite <- app_assoc| |exact Hs].
      rewrite Hl. cbn [default from_option id].
      rewrite newer_than_app. f_equal.
      symmetry. apply newer_than_all. intros t [<-|[]]. apply now_is_newer.
    + specialize (IH self1 now adm).
      destruct (Stated.admissions config self1 ip rest) as [self2 r] eqn:E2.
      cbn [fst snd] in *. cbn [Facts.admitted].
      apply IH; [|exact Hs]. now rewrite Hl.
Qed.

Lemma is_allowed_window_within (self : gmap string (list Q)) (now : Q) :
  Z.of_nat (List.length (default [] (self !! ip))) <= Z.max 0 (Config.RATE_LIMIT config) ->
  Z.of_nat (List.length (default [] (fst (is_allowed config self now ip) !! ip)))
  <= Z.max 0 (Config.RATE_LIMIT config).
Proof.
  intros B. rewrite is_allowed_lookup. cbn [default from_option id].
  assert (K : (List.length (Stated.newer_than (Stated.window_start config now)
                              (default [] (self !! ip)))
               <= List.length (default [] (self !! ip)))%nat)
    by apply newer_than_length.
  rewrite is_allowed_eq.
  destruct (Z.geb_spec
              (Z.of_nat (List.length (Stated.newer_than (Stated.window_start config now)
                                        (default [] (self !! ip)))))
              (Config.RATE_LIMIT config)) as [G|G]; cbn [snd].
  - lia.
  - rewrite length_app. cbn [List.length]. lia.
Qed.

Lemma admissions_window_within (times : list Q) :
  forall self : gmap string (list Q),
    Z.of_nat (List.length (default [] (self !! ip))) <= Z.max 0 (Config.RATE_LIMIT config) ->
    Z.of_nat (List.length (default [] (fst (Stated.admissions config self ip times) !! ip)))
    <= Z.max 0 (Config.RATE_LIMIT config).
Proof.
  induction times as [|now rest IH]; intros self B; [exact B|].
  cbn [Stated.admissions].
  pose proof (is_allowed_window_within self now B) as B1.
  destruct (is_allowed config self now ip) as [self1 a]. cbn [fst] in B1.
  specialize (IH self1 B1).
  destruct (Stated.admissions config self1 ip rest) as [self2 r]. exact IH.
Qed.

(** X2: with a positive window and a clock that never goes back, the
    window of a client not seen before holds, after any sequence of calls,
    exactly the admitted calls that are newer than the last call minus the
    window, and they number at most the limit. *)
Theorem admitted_in_trailing_window (self : gmap string (list Q)) (first : Q)
    (rest : list Q) :
  self !! ip = None ->
  Facts.nondecreasing first rest ->
  default [] (fst (Stated.admissions config self ip (first :: rest)) !! ip)
  = Stated.newer_than (Stated.window_start config (List.last rest first))
      (Facts.admitted (first :: rest)
         (snd (Stated.admissions config self ip (first :: rest))))
  /\ Z.of_nat (List.length
                 (Stated.newer_than (Stated.window_start config (List.last rest first))
                    (Facts.admitted (first :: rest)
                       (snd (Stated.admissions config self ip (first :: rest))))))
     <= Z.max 0 (Config.RATE_LIMIT config).
Proof.
  intros F S.
  assert (E : default [] (fst (Stated.admissions config self ip (first :: rest)) !! ip)
              = Stated.newer_than (Stated.window_start config (List.last rest first))
                  (Facts.admitted (first :: rest)
                     (snd (Stated.admissions config self ip (first :: rest))))).
  { rewrite (admissions_trailing (first :: rest) self first []).
    - now rewrite last_cons_default.
    - now rewrite F.
    - split; [apply Qle_refl|exact S]. }
  split; [exact E|]. rewrite <- E.
  apply admissions_window_within. rewrite F. cbn. lia.
Qed.

End Trailing.

(** Limit 2, window 60, calls at 0, 10, 20, 70 and 75: the third is rejected. *)
Lemma admitted_in_trailing_window_witness :
  snd (Stated.admissions (Samples.limit_of 2) ∅ "203.0.113.7" [0%Q; 10%Q; 20%Q; 70%Q; 75%Q])
  = [true; true; false; true; true]
  /\ default [] (fst (Stated.admissions (Samples.limit_of 2) ∅ "203.0.113.7"
                       [0%Q; 10%Q; 20%Q; 70%Q; 75%Q]) !! "203.0.113.7")
     = Stated.newer_than (Stated.window_start (Samples.limit_of 2) 75%Q)
         (Facts.admitted [0%Q; 10%Q; 20%Q; 70%Q; 75%Q]
            (snd (Stated.admissions (Samples.limit_of 2) ∅ "203.0.113.7"
                    [0%Q; 10%Q; 20%Q; 70%Q; 75%Q]))).
Proof.
  split; [vm_compute; reflexivity|].
  refine (proj1 (admitted_in_trailing_window (Samples.limit_of 2) "203.0.113.7" _ ∅ 0%Q
                   [10%Q; 20%Q; 70%Q; 75%Q] _ _)).
  - reflexivity.
  - reflexivity.
  - cbn. repeat split; vm_compute; discriminate.
Defined.

(** ** More on the endpoint *)

Section EndpointFacts.
Context `{Externals} (config : Config.t).

Lemma send_to_ai_agent_counts (agent : AiAgent.AIAgent.t) (req : AIRequest.t) :
  AiAgent.AIAgent.processing_count (fst (AiAgent.send_to_ai_agent agent req))
  = AiAgent.AIAgent.processing_count agent + 1
  /\ AiAgent.AIAgent.is_ready (fst (AiAgent.send_to_ai_agent agent req))
     = AiAgent.AIAgent.is_ready agent.
Proof.
  unfold AiAgent.send_to_ai_agent, AiAgent.process_webhook.
  destruct (generate_response req); split; reflexivity.
Qed.

(** What one request does to the three singletons. *)
Lemma telegram_webhook_step (st : Main.Service.t) (now : Q) (request : Request.t) :
  Main.Service.rate_limiter (fst (Main.telegram_webhook config st now request))
  = fst (is_allowed config (Main.Service.rate_limiter st) now
           (default "unknown" (Request.client request)))
  /\ WebhookProcessor.processed_count
       (Main.Service.webhook_processor (fst (Main.telegram_webhook config st now request)))
     = WebhookProcessor.processed_count (Main.Service.webhook_processor st)
       + Stated.bump (Facts.is_ok (snd (Main.telegram_webhook config st now request)))
  /\ (WebhookProcessor.error_count
        (Main.Service.webhook_processor (fst (Main.telegram_webhook config st now request)))
      = WebhookProcessor.error_count (Main.Service.webhook_processor st)
      \/ (WebhookProcessor.error_count
            (Main.Service.webhook_processor (fst (Main.telegram_webhook config st now request)))
          = WebhookProcessor.error_count (Main.Service.webhook_processor st) + 1
          /\ Facts.is_ok (snd (Main.telegram_webhook config st now request)) = false))
  /\ AiAgent.AIAgent.processing_count
       (Main.Service.ai_agent (fst (Main.telegram_webhook config st now request)))
     = AiAgent.AIAgent.processing_count (Main.Service.ai_agent st)
       + Stated.bump (Facts.is_ok (snd (Main.telegram_webhook config st now request)))
  /\ AiAgent.AIAgent.is_ready
       (Main.Service.ai_agent (fst (Main.telegram_webhook config st now request)))
     = AiAgent.AIAgent.is_ready (Main.Service.ai_agent st).
Proof.
  destruct (snd (is_allowed config (Main.Service.rate_limiter st) now
                   (default "unknown" (Request.client request)))) eqn:A.
  2:{ rewrite (telegram_webhook_rate_limited config st now request A). cbn.
      repeat split; try lia; try (left; reflexivity). }
  destruct (String.eqb_spec (Request.body request) "") as [B|B].
  { rewrite (telegram_webhook_empty_body config st now request A B). cbn.
    repeat split; try lia; try (left; reflexivity). }
  destruct (prepare_dispatch config request (Request.body request)) as [e|[[tw pw] req]] eqn:D.
  - rewrite (telegram_webhook_failed config st now request e A B D). cbn.
    repeat split; try lia; try (right; split; reflexivity).
  - rewrite (telegram_webhook_dispatched config st now request tw pw req A B D).
    cbn [fst snd Main.Service.rate_limiter Main.Service.webhook_processor
         Main.Service.ai_agent WebhookProcessor.processed_count
         WebhookProcessor.error_count Facts.is_ok Stated.bump].
    destruct (send_to_ai_agent_counts (Main.Service.ai_agent st) req) as [C R].
    repeat split; try assumption; try (left; reflexivity).
Qed.

(** X6: the limiter is consulted first and its new state is kept whatever
    happens next: every request that is not answered 429, also one refused
    later for its body, signature or payload, leaves its time at the end of
    its client's window and so uses up quota. *)
Theorem every_request_is_recorded_by_the_limiter
    (st : Main.Service.t) (now : Q) (request : Request.t) :
  Main.Service.rate_limiter (fst (Main.telegram_webhook config st now request))
  = fst (is_allowed config (Main.Service.rate_limiter st) now
           (default "unknown" (Request.client request)))
  /\ (Main.status_code (snd (Main.telegram_webhook config st now request)) <> 429 ->
      exists earlier,
        Main.Service.rate_limiter (fst (Main.telegram_webhook config st now request))
          !! default "unknown" (Request.client request)
        = Some (earlier ++ [now])).
Proof.
  split; [apply telegram_webhook_step|].
  intros S. rewrite (proj1 (telegram_webhook_step st now request)), is_allowed_lookup.
  destruct (snd (is_allowed config (Main.Service.rate_limiter st) now
                   (default "unknown" (Request.client request)))) eqn:A; [eauto|].
  rewrite (telegram_webhook_rate_limited config st now request A) in S.
  cbn in S. congruence.
Qed.

(** X7: the endpoint answers 200, 400 or 429 and nothing else: a returned
    body always says success, and a failure is the rate-limit error (429),
    the empty-body error (400) or a processing failure (400); no request is
    answered 401 or 500. *)
Theorem telegram_webhook_answers (st : Main.Service.t) (now : Q) (request : Request.t) :
  match snd (Main.telegram_webhook config st now request) with
  | inr response => WebhookResponse.success response = true
  | inl (HTTPException status_code detail) =>
      (status_code = 429 /\ detail = "Rate limit exceeded")
      \/ (status_code = 400 /\ detail = "Empty request body")
      \/ (status_code = 400 /\
          exists e, detail = ("Webhook processing failed: " ++ str e)%string)
  | inl _ => False
  end
  /\ (Main.status_code (snd (Main.telegram_webhook config st now request)) = 200
      \/ Main.status_code (snd (Main.telegram_webhook config st now request)) = 400
      \/ Main.status_code (snd (Main.telegram_webhook config st now request)) = 429).
Proof.
  destruct (snd (is_allowed config (Main.Service.rate_limiter st) now
                   (default "unknown" (Request.client request)))) eqn:A.
  2:{ rewrite (telegram_webhook_rate_limited config st now request A). cbn. tauto. }
  destruct (String.eqb_spec (Request.body request) "") as [B|B].
  { rewrite (telegram_webhook_empty_body config st now request A B). cbn. tauto. }
  destruct (prepare_dispatch config request (Request.body request)) as [e|[[tw pw] req]] eqn:D.
  - rewrite (telegram_webhook_failed config st now request e A B D). cbn.
    split; [right; right; eauto|tauto].
  - rewrite (telegram_webhook_dispatched config st now request tw pw req A B D). cbn. tauto.
Qed.

Lemma count_ok_cons {A} (r : Exception + A) (l : list (Exception + A)) :
  Facts.count_ok (r :: l) = Stated.bump (Facts.is_ok r) + Facts.count_ok l.
Proof.
  unfold Facts.count_ok, Stated.bump. cbn [List.filter].
  destruct (Facts.is_ok r); cbn [List.length]; lia.
Qed.

Lemma count_ok_bounds {A} (l : list (Exception + A)) :
  0 <= Facts.count_ok l <= Z.of_nat (List.length l).
Proof.
  unfold Facts.count_ok. pose proof (List.filter_length_le Facts.is_ok l). lia.
Qed.

Lemma serve_step_invariants (trace : list (Q * Request.t)) :
  forall st : Main.Service.t,
    List.length (snd (Main.serve config st trace)) = List.length trace
    /\ WebhookProcessor.processed_count
         (Main.Service.webhook_processor (fst (Main.serve config st trace)))
       = WebhookProcessor.processed_count (Main.Service.webhook_processor st)
         + Facts.count_ok (snd (Main.serve config st trace))
    /\ WebhookProcessor.error_count (Main.Service.webhook_processor st)
       <= WebhookProcessor.error_count
            (Main.Service.webhook_processor (fst (Main.serve config st trace)))
       <= WebhookProcessor.error_count (Main.Service.webhook_processor st)
          + (Z.of_nat (List.length trace) - Facts.count_ok (snd (Main.serve config st trace)))
    /\ AiAgent.AIAgent.processing_count (Main.Service.ai_agent (fst (Main.serve config st trace)))
       = AiAgent.AIAgent.processing_count (Main.Service.ai_agent st)
         + Facts.count_ok (snd (Main.serve config st trace))
    /\ AiAgent.AIAgent.is_ready (Main.Service.ai_agent (fst (Main.serve config st trace)))
       = AiAgent.AIAgent.is_ready (Main.Service.ai_agent st)
    /\ (Facts.windows_within (Z.max 0 (Config.RATE_LIMIT config)) (Main.Service.rate_limiter st) ->
        Facts.windows_within (Z.max 0 (Config.RATE_LIMIT config))
          (Main.Service.rate_limiter (fst (Main.serve config st trace)))).
Proof.
  induction trace as [|[now request] rest IH]; intros st.
  - cbn. unfold Facts.count_ok. cbn. repeat split; try lia. tauto.
  - cbn [Main.serve].
    pose proof (telegram_webhook_step st now request) as (Hr & Hp & He & Ha & Hy).
    destruct (Main.telegram_webhook config st now request) as [st1 r] eqn:E.
    cbn [fst snd] in *. specialize (IH st1).
    destruct (Main.serve config st1 rest) as [st2 rs]. cbn [fst snd] in *.
    destruct IH as (I1 & I2 & I3 & I4 & I5 & I6).
    rewrite count_ok_cons. cbn [List.length].
    pose proof (count_ok_bounds rs) as Cb.
    assert (Bb : 0 <= Stated.bump (Facts.is_ok r) <= 1)
      by (destruct (Facts.is_ok r); cbn; lia).
    repeat split; try lia.
    + destruct He as [He|[He Hf]]; [lia|]. rewrite Hf in *. cbn in *. lia.
    + congruence.
    + intros W. apply I6. rewrite Hr. apply is_allowed_windows_within. exact W.
Qed.

End EndpointFacts.

Lemma success_rate_bounds (self : WebhookProcessor.t) :
  0 <= WebhookProcessor.processed_count self ->
  0 <= WebhookProcessor.error_count self ->
  (0 <= Statistics.success_rate (get_statistics self) <= 1)%Q
  /\ (WebhookProcessor.error_count self = 0 -> 0 < WebhookProcessor.processed_count self ->
      (Statistics.success_rate (get_statistics self) == 1)%Q)
  /\ (WebhookProcessor.processed_count self = 0 ->
      (Statistics.success_rate (get_statistics self) == 0)%Q).
Proof.
  intros P E. unfold get_statistics. cbn [Statistics.success_rate].
  set (p := WebhookProcessor.processed_count self) in *.
  set (e := WebhookProcessor.error_count self) in *.
  destruct (Z.gtb_spec (p + e) 0) as [G|G].
  - assert (Gq : (0 < inject_Z (p + e))%Q)
      by (change 0%Q with (inject_Z 0); rewrite <- Zlt_Qlt; exact G).
    assert (Pq : (0 <= inject_Z p)%Q)
      by (change 0%Q with (inject_Z 0); rewrite <- Zle_Qle; exact P).
    assert (Le : (inject_Z p <= inject_Z (p + e))%Q) by (rewrite <- Zle_Qle; lia).
    repeat split.
    + apply Qle_shift_div_l; [exact Gq|]. lra.
    + apply Qle_shift_div_r; [exact Gq|]. lra.
    + intros E0 _. rewrite E0, Z.add_0_r in *. field. lra.
    + intros P0. rewrite P0. unfold Qdiv. change (inject_Z 0) with 0%Q. apply Qmult_0_l.
  - repeat split; try (intros; reflexivity); try discriminate.
    intros E0 Pp. lia.
Qed.

Section TraceFacts.
Context `{Externals} (config : Config.t).

(** X8: along any sequence of requests there is one answer per request,
    [processed_count] grows by the number of answers that are a returned
    body, and [error_count] never decreases and grows by at most the
    number of the other answers. *)
Theorem served_counters (st : Main.Service.t) (trace : list (Q * Request.t)) :
  List.length (snd (Main.serve config st trace)) = List.length trace
  /\ WebhookProcessor.processed_count
       (Main.Service.webhook_processor (fst (Main.serve config st trace)))
     = WebhookProcessor.processed_count (Main.Service.webhook_processor st)
       + Facts.count_ok (snd (Main.serve config st trace))
  /\ WebhookProcessor.error_count (Main.Service.webhook_processor st)
     <= WebhookProcessor.error_count
          (Main.Service.webhook_processor (fst (Main.serve config st trace)))
     <= WebhookProcessor.error_count (Main.Service.webhook_processor st)
        + (Z.of_nat (List.length trace) - Facts.count_ok (snd (Main.serve config st trace)))
  /\ 0 <= Facts.count_ok (snd (Main.serve config st trace)) <= Z.of_nat (List.length trace).
Proof.
  destruct (serve_step_invariants config trace st) as (L & P & E & _).
  repeat split; try assumption; try apply E.
  - apply count_ok_bounds.
  - rewrite <- L. apply count_ok_bounds.
Qed.

(** X9: from counters that are not negative, the [success_rate] reported
    after any sequence of requests lies between 0 and 1, and it is 0 as
    long as no request was processed. *)
Theorem served_success_rate_bounds (st : Main.Service.t) (trace : list (Q * Request.t)) :
  0 <= WebhookProcessor.processed_count (Main.Service.webhook_processor st) ->
  0 <= WebhookProcessor.error_count (Main.Service.webhook_processor st) ->
  (0 <= Statistics.success_rate
          (get_statistics (Main.Service.webhook_processor (fst (Main.serve config st trace))))
   <= 1)%Q
  /\ (WebhookProcessor.processed_count (Main.Service.webhook_processor st) = 0 ->
      Facts.count_ok (snd (Main.serve config st trace)) = 0 ->
      (Statistics.success_rate
         (get_statistics (Main.Service.webhook_processor (fst (Main.serve config st trace))))
       == 0)%Q).
Proof.
  intros P E.
  destruct (serve_step_invariants config trace st) as (_ & Hp & He & _).
  pose proof (count_ok_bounds (snd (Main.serve config st trace))) as Cb.
  destruct (success_rate_bounds
              (Main.Service.webhook_processor (fst (Main.serve config st trace))))
    as (B & _ & Z0); try lia.
  split; [exact B|]. intros P0 C0. apply Z0. lia.
Qed.

(** X10: the agent is asked exactly once per processed request: its
    [processing_count] grows by the same amount as [processed_count], its
    readiness never changes, and from the initial state the health report
    says healthy after any sequence of requests. *)
Theorem served_agent_health (st : Main.Service.t) (trace : list (Q * Request.t)) :
  Health.AgentHealth.processing_count
    (Health.Report.ai_agent (Health.health_check (fst (Main.serve config st trace))))
  - AiAgent.AIAgent.processing_count (Main.Service.ai_agent st)
  = Statistics.processed_count
      (Health.Report.webhook_processor (Health.health_check (fst (Main.serve config st trace))))
    - WebhookProcessor.processed_count (Main.Service.webhook_processor st)
  /\ Health.AgentHealth.processing_count
       (Health.Report.ai_agent (Health.health_check (fst (Main.serve config st trace))))
     = AiAgent.AIAgent.processing_count (Main.Service.ai_agent st)
       + Facts.count_ok (snd (Main.serve config st trace))
  /\ Health.AgentHealth.status
       (Health.Report.ai_agent (Health.health_check (fst (Main.serve config st trace))))
     = Health.AgentHealth.status (Health.Report.ai_agent (Health.health_check st))
  /\ Health.AgentHealth.status
       (Health.Report.ai_agent
          (Health.health_check (fst (Main.serve config Main.service_init trace))))
     = "healthy".
Proof.
  destruct (serve_step_invariants config trace st) as (_ & Hp & _ & Ha & Hr & _).
  destruct (serve_step_invariants config trace Main.service_init) as (_ & _ & _ & _ & Hi & _).
  unfold Health.health_check, Health.agent_health_check, get_statistics.
  cbn [Health.Report.ai_agent Health.Report.webhook_processor
       Health.AgentHealth.processing_count Health.AgentHealth.status
       Statistics.processed_count].
  rewrite Hr, Hi. repeat split; try lia.
Qed.

(** X1: no window of the limiter outgrows the limit: when every window
    holds at most [max 0 RATE_LIMIT] timestamps, so it does after any
    sequence of requests, whatever their clients, times and outcomes. *)
Theorem served_windows_within (st : Main.Service.t) (trace : list (Q * Request.t)) :
  Facts.windows_within (Z.max 0 (Config.RATE_LIMIT config)) (Main.Service.rate_limiter st) ->
  Facts.windows_within (Z.max 0 (Config.RATE_LIMIT config))
    (Main.Service.rate_limiter (fst (Main.serve config st trace))).
Proof. apply serve_step_invariants. Qed.

End TraceFacts.

(** The mixed trace, served from the initial state with a limit of three. *)
Lemma served_windows_within_witness :
  Facts.windows_within (Z.max 0 (Config.RATE_LIMIT (Samples.limit_of 3)))
    (Main.Service.rate_limiter
       (fst (Main.serve (H := Samples.rules) (Samples.limit_of 3) Main.service_init
               Samples.mixed_trace))).
Proof.
  apply (served_windows_within (H := Samples.rules) (Samples.limit_of 3) Main.service_init
           Samples.mixed_trace).
  intros ip window L. vm_compute in L. discriminate L.
Defined.

(** The mixed trace: one processed request and one error. *)
Lemma served_success_rate_bounds_witness :
  (0 <= Statistics.success_rate
          (get_statistics
             (Main.Service.webhook_processor
                (fst (Main.serve (H := Samples.rules) (Samples.limit_of 3) Main.service_init
                        Samples.mixed_trace))))
   <= 1)%Q.
Proof.
  apply (served_success_rate_bounds (H := Samples.rules) (Samples.limit_of 3)
           Main.service_init Samples.mixed_trace); vm_compute; discriminate.
Defined.

(** ** More on the processor *)

Section ProcessorFacts.
Context `{Externals} (config : Config.t).

(** X12: for an admitted request with a non-empty body, a passing signature
    check and a payload with a primary message, the answer echoes the
    update id, the chat id and the sender id (null without sender) of that
    message, its content type, whether the agent succeeded and the agent's
    reply (null when it failed); the chat id is never null. *)
Theorem telegram_webhook_success_fields (st : Main.Service.t) (now : Q)
    (request : Request.t) (w : TelegramWebhook.t) (m : TelegramMessage.t) :
  snd (is_allowed config (Main.Service.rate_limiter st) now
         (default "unknown" (Request.client request))) = true ->
  Request.body request <> "" ->
  check_signature config request (Request.body request) = inr tt ->
  load_webhook (Request.body request) = inr w ->
  TelegramWebhook.get_message w = Some m ->
  snd (Main.telegram_webhook config st now request)
  = inr {| WebhookResponse.success := true;
           WebhookResponse.message := "Webhook processed successfully";
           WebhookResponse.processed_data := Some
             [ ("update_id", PyInt (TelegramWebhook.update_id w));
               ("chat_id", PyInt (TelegramChat.id (TelegramMessage.chat m)));
               ("user_id", Main.opt_int (TelegramUser.id <$> TelegramMessage.from_user m));
               ("message_type", PyStr (_determine_message_type w));
               ("sent_to_ai",
                PyBool (Facts.is_ok
                          (generate_response
                             {| AIRequest.webhook_id := 0;
                                AIRequest.update_id := TelegramWebhook.update_id w;
                                AIRequest.chat_id :=
                                  Some (TelegramChat.id (TelegramMessage.chat m));
                                AIRequest.user_id :=
                                  TelegramUser.id <$> TelegramMessage.from_user m;
                                AIRequest.message_text := TelegramWebhook.get_text w;
                                AIRequest.message_type := _determine_message_type w |})));
               ("ai_response",
                match generate_response
                        {| AIRequest.webhook_id := 0;
                           AIRequest.update_id := TelegramWebhook.update_id w;
                           AIRequest.chat_id :=
                             Some (TelegramChat.id (TelegramMessage.chat m));
                           AIRequest.user_id :=
                             TelegramUser.id <$> TelegramMessage.from_user m;
                           AIRequest.message_text := TelegramWebhook.get_text w;
                           AIRequest.message_type := _determine_message_type w |}
                with
                | inr reply => PyStr reply
                | inl _ => PyNone
                end) ] |}.
Proof.
  intros A B S L M.
  assert (D : prepare_dispatch config request (Request.body request)
              = inr (w,
                     {| ProcessedWebhook.id := None;
                        ProcessedWebhook.update_id := TelegramWebhook.update_id w;
                        ProcessedWebhook.chat_id :=
                          Some (TelegramChat.id (TelegramMessage.chat m));
                        ProcessedWebhook.user_id :=
                          TelegramUser.id <$> TelegramMessage.from_user m;
                        ProcessedWebhook.message_text := TelegramWebhook.get_text w;
                        ProcessedWebhook.message_type := _determine_message_type w;
                        ProcessedWebhook.sent_to_ai := false;
                        ProcessedWebhook.ai_response := None;
                        ProcessedWebhook.raw_data := Request.body request |},
                     {| AIRequest.webhook_id := 0;
                        AIRequest.update_id := TelegramWebhook.update_id w;
                        AIRequest.chat_id :=
                          Some (TelegramChat.id (TelegramMessage.chat m));
                        AIRequest.user_id :=
                          TelegramUser.id <$> TelegramMessage.from_user m;
                        AIRequest.message_text := TelegramWebhook.get_text w;
                        AIRequest.message_type := _determine_message_type w |})).
  { unfold prepare_dispatch, _parse_webhook_data. rewrite S, L, M.
    destruct (TelegramMessage.from_user m); reflexivity. }
  rewrite (telegram_webhook_dispatched config st now request _ _ _ A B D).
  cbn [snd ProcessedWebhook.update_id ProcessedWebhook.chat_id ProcessedWebhook.user_id
       ProcessedWebhook.message_type Main.opt_int].
  unfold AiAgent.send_to_ai_agent, AiAgent.process_webhook.
  destruct (generate_response _); reflexivity.
Qed.

(** X13: an update that parses but carries none of the four message
    variants (a poll, a callback query, ...) is answered 400 with the detail
    that no message was found, counts as an error, and never reaches the
    agent. *)
Theorem update_without_message_is_refused (st : Main.Service.t) (now : Q)
    (request : Request.t) (w : TelegramWebhook.t) :
  snd (is_allowed config (Main.Service.rate_limiter st) now
         (default "unknown" (Request.client request))) = true ->
  Request.body request <> "" ->
  check_signature config request (Request.body request) = inr tt ->
  load_webhook (Request.body request) = inr w ->
  TelegramWebhook.message w = None -> TelegramWebhook.edited_message w = None ->
  TelegramWebhook.channel_post w = None -> TelegramWebhook.edited_channel_post w = None ->
  snd (Main.telegram_webhook config st now request)
  = inl (HTTPException 400 "Webhook processing failed: No message found in webhook")
  /\ WebhookProcessor.error_count
       (Main.Service.webhook_processor (fst (Main.telegram_webhook config st now request)))
     = WebhookProcessor.error_count (Main.Service.webhook_processor st) + 1
  /\ Main.Service.ai_agent (fst (Main.telegram_webhook config st now request))
     = Main.Service.ai_agent st.
Proof.
  intros A B S L M1 M2 M3 M4.
  assert (D : prepare_dispatch config request (Request.body request)
              = inl (ValueError "No message found in webhook")).
  { unfold prepare_dispatch, _parse_webhook_data. rewrite S, L.
    rewrite (proj2 (get_message_none_iff w)) by tauto. reflexivity. }
  rewrite (telegram_webhook_failed config st now request _ A B D).
  repeat split.
Qed.

End ProcessorFacts.

(** The end-to-end example is answered 200. *)
Lemma telegram_webhook_success_fields_witness :
  Main.status_code
    (snd (Main.telegram_webhook (H := Samples.rules) Config.default Main.service_init 0%Q
            (Samples.request_of None Samples.hello_body))) = 200.
Proof.
  rewrite (telegram_webhook_success_fields (H := Samples.rules) Config.default
             Main.service_init 0%Q (Samples.request_of None Samples.hello_body)
             Samples.hello_update Samples.hello_message);
    try reflexivity.
  discriminate.
Defined.

(** A poll update. *)
Lemma update_without_message_is_refused_witness :
  snd (Main.telegram_webhook (H := Samples.rules) Config.default Main.service_init 0%Q
         (Samples.request_of None Samples.poll_body))
  = inl (HTTPException 400 "Webhook processing failed: No message found in webhook").
Proof.
  refine (proj1 (update_without_message_is_refused (H := Samples.rules) Config.default
                   Main.service_init 0%Q (Samples.request_of None Samples.poll_body)
                   Samples.poll_update _ _ _ _ _ _ _ _)); try reflexivity.
  discriminate.
Defined.

(** ** More on the agent *)

Lemma prefix_app (a b : string) : String.prefix a (a ++ b)%string = true.
Proof.
  induction a as [|c a IH]; simpl; [now destruct b|].
  destruct (Ascii.ascii_dec c c); [exact IH|congruence].
Qed.

Lemma prefix_split (a s : string) :
  String.prefix a s = true -> exists post, s = (a ++ post)%string.
Proof.
  revert s. induction a as [|c a IH]; intros s P.
  - exists s. reflexivity.
  - destruct s as [|d s]; simpl in P; [discriminate|].
    destruct (Ascii.ascii_dec c d) as [<-|]; [|discriminate].
    destruct (IH s P) as [post ->]. exists post. reflexivity.
Qed.

Lemma contains_prefix (needle hay : string) :
  String.prefix needle hay = true -> contains needle hay = true.
Proof. intros P. destruct hay; cbn [contains]; now rewrite P. Qed.

(** [contains] is the substring test. *)
Lemma contains_iff (needle hay : string) :
  contains needle hay = true <-> exists pre post, hay = (pre ++ needle ++ post)%string.
Proof.
  split.
  - induction hay as [|c hay IH]; cbn [contains].
    + destruct (String.prefix needle "") eqn:P; [|discriminate].
      intros _. destruct (prefix_split _ _ P) as [post E]. exists "", post. exact E.
    + destruct (String.prefix needle (String c hay)) eqn:P.
      * intros _. destruct (prefix_split _ _ P) as [post E]. exists "", post. exact E.
      * intros C. destruct (IH C) as (pre & post & ->).
        exists (String c pre), post. reflexivity.
  - intros (pre & post & ->).
    induction pre as [|c pre IH].
    + change ("" ++ needle ++ post)%string with (needle ++ post)%string.
      apply contains_prefix, prefix_app.
    + change (String c pre ++ needle ++ post)%string
        with (String c (pre ++ needle ++ post)%string).
      cbn [contains]. rewrite IH. now destruct (String.prefix _ _).
Qed.

Section RuleFacts.
Variables (lower_strip : string -> string) (now_hms : string).

Lemma generate_response_nonempty (r : AIRequest.t) :
  AiAgent._generate_response lower_strip now_hms r <> "".
Proof.
  unfold AiAgent._generate_response.
  destruct (negb _); [discriminate|].
  repeat (match goal with |- (if ?c then _ else _) <> _ => destruct c end);
    cbn; discriminate.
Qed.

(** X15: the keyword rules apply in order to the lower-cased, stripped
    text: a greeting keyword anywhere in it gives the greeting whatever else
    it holds; the help answer needs a help keyword and no greeting keyword;
    and a text with no greeting, help or time keyword gets the question
    answer when it holds a question mark, else an echo of the original text
    (not the lower-cased one) between quotes. *)
Theorem generate_response_rule_order (r : AIRequest.t) (text : string) :
  AIRequest.message_text r = Some text ->
  text <> "" ->
  ((exists pre post, lower_strip text = (pre ++ "hello" ++ post)%string) ->
   AiAgent._generate_response lower_strip now_hms r = "Привет! Рад вас видеть!")
  /\ ((exists pre post, lower_strip text = (pre ++ "привет" ++ post)%string) ->
      AiAgent._generate_response lower_strip now_hms r = "Привет! Рад вас видеть!")
  /\ (contains "привет" (lower_strip text) = false ->
      contains "hello" (lower_strip text) = false ->
      (exists pre post, lower_strip text = (pre ++ "help" ++ post)%string) ->
      AiAgent._generate_response lower_strip now_hms r
      = "Я могу помочь вам с различными вопросами. Что вам нужно?")
  /\ (contains "привет" (lower_strip text) = false ->
      contains "hello" (lower_strip text) = false ->
      contains "помощь" (lower_strip text) = false ->
      contains "help" (lower_strip text) = false ->
      contains "время" (lower_strip text) = false ->
      contains "time" (lower_strip text) = false ->
      AiAgent._generate_response lower_strip now_hms r
      = if contains "?" (lower_strip text)
        then "Интересный вопрос! Я подумаю над этим."
        else ("Получено сообщение: '" ++ text ++ "'")%string).
Proof.
  intros T N. unfold AiAgent._generate_response. rewrite T.
  assert (Tr : truthy_str (Some text) = true) by (destruct text; [congruence|reflexivity]).
  rewrite Tr. cbn [negb default from_option id].
  repeat split.
  - intros C. apply contains_iff in C. rewrite C, orb_true_r. reflexivity.
  - intros C. apply contains_iff in C. rewrite C. reflexivity.
  - intros C1 C2 C. apply contains_iff in C. rewrite C1, C2, C, orb_true_r. reflexivity.
  - intros C1 C2 C3 C4 C5 C6. rewrite C1, C2, C3, C4, C5, C6. reflexivity.
Qed.

(** X14: with the rule-based agent of the repository, every request that
    is answered with a body was sent to the agent successfully and carries
    a non-empty reply. *)
Theorem keyword_agent_always_answers
    (load : string -> Exception + TelegramWebhook.t)
    (config : Config.t) (st : Main.Service.t) (now : Q) (request : Request.t)
    (response : WebhookResponse.t) :
  snd (Main.telegram_webhook (H := Facts.with_keyword_rules load lower_strip now_hms)
         config st now request) = inr response ->
  exists data reply,
    WebhookResponse.processed_data response = Some data
    /\ In ("sent_to_ai", PyBool true) data
    /\ In ("ai_response", PyStr reply) data
    /\ reply <> "".
Proof.
  intros R.
  destruct (snd (is_allowed config (Main.Service.rate_limiter st) now
                   (default "unknown" (Request.client request)))) eqn:A.
  2:{ rewrite (telegram_webhook_rate_limited config st now request A) in R. discriminate R. }
  destruct (String.eqb_spec (Request.body request) "") as [B|B].
  { rewrite (telegram_webhook_empty_body config st now request A B) in R. discriminate R. }
  destruct (prepare_dispatch (H := Facts.with_keyword_rules load lower_strip now_hms)
              config request (Request.body request)) as [e|[[tw pw] req]] eqn:D.
  { rewrite (telegram_webhook_failed config st now request e A B D) in R. discriminate R. }
  rewrite (telegram_webhook_dispatched config st now request tw pw req A B D) in R.
  cbn [snd] in R. injection R as <-.
  cbn [WebhookResponse.processed_data].
  eexists _, (AiAgent._generate_response lower_strip now_hms req).
  split; [reflexivity|].
  split; [|split].
  - do 4 right. left. reflexivity.
  - do 5 right. left. reflexivity.
  - apply generate_response_nonempty.
Qed.

End RuleFacts.

(** A greeting that also asks for the time gets the greeting. *)
Lemma generate_response_rule_order_witness :
  AiAgent._generate_response (fun s => s) "12:00:00"
    {| AIRequest.webhook_id := 0; AIRequest.update_id := 1; AIRequest.chat_id := None;
       AIRequest.user_id := None; AIRequest.message_text := Some "say hello, what time is it?";
       AIRequest.message_type := "text" |}
  = "Привет! Рад вас видеть!".
Proof.
  refine (proj1 (generate_response_rule_order (fun s => s) "12:00:00"
                   {| AIRequest.webhook_id := 0; AIRequest.update_id := 1;
                      AIRequest.chat_id := None; AIRequest.user_id := None;
                      AIRequest.message_text := Some "say hello, what time is it?";
                      AIRequest.message_type := "text" |}
                   "say hello, what time is it?" eq_refl _) _).
  - discriminate.
  - exists "say ", ", what time is it?". reflexivity.
Defined.

(** The answer to the end-to-end example. *)
Lemma keyword_agent_always_answers_witness :
  exists data reply,
    WebhookResponse.processed_data
      {| WebhookResponse.success := true;
         WebhookResponse.message := "Webhook processed successfully";
         WebhookResponse.processed_data := Some
           [ ("update_id", PyInt 123456789); ("chat_id", PyInt 987654321);
             ("user_id", PyInt 987654321); ("message_type", PyStr "text");
             ("sent_to_ai", PyBool true);
             ("ai_response", PyStr "Привет! Рад вас видеть!") ] |}
    = Some data
    /\ In ("sent_to_ai", PyBool true) data
    /\ In ("ai_response", PyStr reply) data
    /\ reply <> "".
Proof.
  apply (keyword_agent_always_answers (fun s => s) "12:00:00" Samples.load_samples
           Config.default Main.service_init 0%Q
           (Samples.request_of None Samples.hello_body)).
  vm_compute. reflexivity.
Defined.

(** ** More on the signature, the models and the start-up check *)

Lemma hex_digit_lower (n : Z) : Facts.is_lower_hex_digit (Hashlib.hex_digit n) = true.
Proof.
  destruct n as [|p|p]; try reflexivity.
  do 4 (destruct p as [p|p|]; try reflexivity).
Qed.

Lemma hex_of_bytes_lower (l : list Z) : Facts.is_lower_hex (Hashlib.hex_of_bytes l) = true.
Proof.
  unfold Facts.is_lower_hex. induction l as [|b l IH]; [reflexivity|].
  cbn [Hashlib.hex_of_bytes list_ascii_of_string forallb].
  rewrite !hex_digit_lower. exact IH.
Qed.

(** X16: with a secret configured, a token that passes the check is the
    digest itself: 64 characters, each a digit or a lower-case letter from a
    to f (so an upper-case or truncated digest is never accepted). *)
Theorem accepted_token_shape (config : Config.t) (request : Request.t) (body : string) :
  Config.WEBHOOK_SECRET_TOKEN config <> "" ->
  check_signature config request body = inr tt ->
  exists token,
    Request.secret_token request = Some token
    /\ token = Hashlib.hmac_hexdigest (Config.WEBHOOK_SECRET_TOKEN config) body
    /\ String.length token = 64%nat
    /\ Facts.is_lower_hex token = true.
Proof.
  intros S C. unfold check_signature in C.
  apply String.eqb_neq in S. rewrite S in C. cbn [negb] in C.
  rewrite validate_signature_cases in C.
  destruct (Request.secret_token request) as [[|c token]|]; try discriminate C.
  destruct (is_ascii (String c token)); [|discriminate C].
  destruct (String.eqb_spec (String c token)
              (Hashlib.hmac_hexdigest (Config.WEBHOOK_SECRET_TOKEN config) body)) as [E|E];
    [|discriminate C].
  exists (String c token). rewrite E.
  split; [reflexivity|]. split; [reflexivity|].
  split; [apply hmac_hexdigest_length|apply hex_of_bytes_lower].
Qed.

(** The digest of the sample body under the sample secret. *)
Lemma accepted_token_shape_witness :
  exists token,
    Some (Hashlib.hmac_hexdigest (Config.WEBHOOK_SECRET_TOKEN Samples.with_secret)
            Samples.hello_body) = Some token
    /\ token = Hashlib.hmac_hexdigest (Config.WEBHOOK_SECRET_TOKEN Samples.with_secret)
                 Samples.hello_body
    /\ String.length token = 64%nat
    /\ Facts.is_lower_hex token = true.
Proof.
  apply (accepted_token_shape Samples.with_secret
           (Samples.request_of
              (Some (Hashlib.hmac_hexdigest (Config.WEBHOOK_SECRET_TOKEN Samples.with_secret)
                       Samples.hello_body))
              Samples.hello_body)
           Samples.hello_body).
  - discriminate.
  - vm_compute. reflexivity.
Defined.




(** X18: when a new message is present, text and content type are read from
    it alone: a new message without text and caption gives no text even if
    an edited message or a channel post has one, and two updates with the
    same new message get the same text and type. *)
Theorem only_the_primary_message_is_read (w : TelegramWebhook.t) (m : TelegramMessage.t) :
  TelegramWebhook.message w = Some m ->
  (TelegramMessage.text m = None -> TelegramMessage.caption m = None ->
   TelegramWebhook.get_text w = None)
  /\ (forall w', TelegramWebhook.message w' = Some m ->
        TelegramWebhook.get_text w' = TelegramWebhook.get_text w
        /\ _determine_message_type w' = _determine_message_type w).
Proof.
  intros M.
  assert (G : forall v, TelegramWebhook.message v = Some m ->
                        TelegramWebhook.get_message v = Some m).
  { intros v Mv. rewrite get_message_unfold, Mv. reflexivity. }
  split.
  - intros T C. rewrite get_text_unfold, (G w M), T. exact C.
  - intros w' M'. unfold _determine_message_type.
    rewrite !get_text_unfold, (G w M), (G w' M'). split; reflexivity.
Qed.

(** A new message without text beside an edited message with text. *)
Lemma only_the_primary_message_is_read_witness :
  TelegramWebhook.get_text
    (Samples.update_with (Some (Samples.message_with None None None))
       (Some Samples.edit_message) None None) = None.
Proof.
  exact (proj1 (only_the_primary_message_is_read
                  (Samples.update_with (Some (Samples.message_with None None None))
                     (Some Samples.edit_message) None None)
                  (Samples.message_with None None None) eq_refl) eq_refl eq_refl).
Defined.


Section ProcessorAccounting.
Context `{Externals} (config : Config.t).

(** X11: one call of the processor moves exactly one counter: either it
    returns a record (without identifier, with the body as raw data),
    [processed_count] and the agent's count grow by one and [error_count]
    stays, or it raises a 400 whose detail starts with the processing
    failure text, [error_count] grows by one, [processed_count] stays and
    the agent is untouched. *)
Theorem process_telegram_webhook_accounting
    (self : WebhookProcessor.t) (agent : AiAgent.AIAgent.t)
    (request : Request.t) (body : string) :
  (exists record,
      snd (process_telegram_webhook config self agent request body) = inr record
      /\ WebhookProcessor.processed_count
           (fst (fst (process_telegram_webhook config self agent request body)))
         = WebhookProcessor.processed_count self + 1
      /\ WebhookProcessor.error_count
           (fst (fst (process_telegram_webhook config self agent request body)))
         = WebhookProcessor.error_count self
      /\ AiAgent.AIAgent.processing_count
           (snd (fst (process_telegram_webhook config self agent request body)))
         = AiAgent.AIAgent.processing_count agent + 1
      /\ ProcessedWebhook.raw_data record = body
      /\ ProcessedWebhook.id record = None)
  \/ (exists e,
        snd (process_telegram_webhook config self agent request body)
        = inl (HTTPException 400 ("Webhook processing failed: " ++ str e)%string)
        /\ WebhookProcessor.processed_count
             (fst (fst (process_telegram_webhook config self agent request body)))
           = WebhookProcessor.processed_count self
        /\ WebhookProcessor.error_count
             (fst (fst (process_telegram_webhook config self agent request body)))
           = WebhookProcessor.error_count self + 1
        /\ snd (fst (process_telegram_webhook config self agent request body)) = agent).
Proof.
  unfold process_telegram_webhook.
  destruct (prepare_dispatch config request body) as [e|[[tw pw] req]] eqn:D.
  - right. exists e. repeat split.
  - left.
    pose proof (send_to_ai_agent_counts agent req) as [C _].
    assert (R : ProcessedWebhook.raw_data pw = body /\ ProcessedWebhook.id pw = None).
    { unfold prepare_dispatch in D.
      destruct (check_signature config request body) as [?|[]]; [discriminate|].
      destruct (_parse_webhook_data body) as [?|w]; [discriminate|].
      destruct (TelegramWebhook.get_message w); [|discriminate].
      injection D as <- <- <-. split; reflexivity. }
    destruct (AiAgent.send_to_ai_agent agent req) as [agent' resp]. cbn [fst snd] in *.
    eexists. split; [reflexivity|]. cbn. tauto.
Qed.

End ProcessorAccounting.

(** X5: the limiter at the edges of its settings: with a limit of 0 or
    less every call is rejected; with a limit of at least 1 a call that
    finds no timestamp newer than [now - RATE_LIMIT_WINDOW] is admitted and
    leaves [now] alone in the window; and with a window of 0 or less that
    is so as soon as no stored timestamp is later than [now]. *)
Theorem is_allowed_edge_settings (config : Config.t) (self : gmap string (list Q))
    (now : Q) (ip : string) :
  (Config.RATE_LIMIT config <= 0 -> snd (is_allowed config self now ip) = false)
  /\ (1 <= Config.RATE_LIMIT config ->
      (forall t, In t (default [] (self !! ip)) ->
                 (t <= now - inject_Z (Config.RATE_LIMIT_WINDOW config))%Q) ->
      is_allowed config self now ip = (<[ip := [now]]> self, true))
  /\ (1 <= Config.RATE_LIMIT config ->
      Config.RATE_LIMIT_WINDOW config <= 0 ->
      (forall t, In t (default [] (self !! ip)) -> (t <= now)%Q) ->
      is_allowed config self now ip = (<[ip := [now]]> self, true)).
Proof.
  assert (P : 1 <= Config.RATE_LIMIT config ->
              (forall t, In t (default [] (self !! ip)) ->
                         (t <= Stated.window_start config now)%Q) ->
              is_allowed config self now ip = (<[ip := [now]]> self, true)).
  { intros L O. rewrite is_allowed_eq.
    assert (E : Stated.newer_than (Stated.window_start config now) (default [] (self !! ip))
                = []).
    { unfold Stated.newer_than.
      induction (default [] (self !! ip)) as [|a l IH]; [reflexivity|].
      cbn [List.filter].
      destruct (Qgt_bool a (Stated.window_start config now)) eqn:G.
      - apply Qgt_bool_iff in G. exfalso.
        exact (Qlt_not_le _ _ G (O a (or_introl eq_refl))).
      - apply IH. intros t Ht. apply O. now right. }
    rewrite E. cbn [List.length app].
    destruct (Z.geb_spec (Z.of_nat 0) (Config.RATE_LIMIT config)); [lia|reflexivity]. }
  split; [|split].
  - intros L. rewrite is_allowed_eq.
    destruct (Z.geb_spec
                (Z.of_nat (List.length (Stated.newer_than (Stated.window_start config now)
                                          (default [] (self !! ip)))))
                (Config.RATE_LIMIT config)); [reflexivity|lia].
  - exact P.
  - intros L W O. apply P; [exact L|].
    intros t Ht. specialize (O t Ht). unfold Stated.window_start.
    assert (inject_Z (Config.RATE_LIMIT_WINDOW config) <= 0)%Q
      by (change 0%Q with (inject_Z 0); rewrite <- Zle_Qle; exact W).
    lra.
Qed.

